(** * Short-rate model calibration notebook: swaption helpers and report

    A shallow embedding of the Python code of
    [Short_rate_models_calibration.ipynb]: the quote tuples, the function
    [create_swaption_helpers] that turns quotes into QuantLib swaption
    helpers, and the function [calibration_report] that reads prices and
    implied volatilities back from the helpers and aggregates the errors.
    The cells that call the two functions (the three calibration cells and
    the report cells) and the loop of the simulation cell follow.

    Python floats are IEEE binary64 numbers and are modelled by Rocq's
    primitive floats, so every definition below evaluates.  QuantLib itself
    is not part of the notebook: its constructors are modelled as the records
    of the arguments they store ([Period] after the conversion of its length
    to a C [int], which can fail), and the three helper methods used by the
    report form an interface ([QuantLib]) over an abstract library state.
    The C library's [pow], which the interpreter calls for [**], is an
    interface as well ([Libm]). *)

From Stdlib Require Import ZArith List String Bool Floats Lia.
Import ListNotations.

Set Warnings "-inexact-float".
Set Implicit Arguments.

Open Scope string_scope.
Open Scope list_scope.
Open Scope float_scope.

(** Python's [len]. *)
Abbreviation len := (@Datatypes.length _).

(* ------------------------------------------------------------------ *)
(** ** Python outcomes *)

(** The exceptions the modelled statements can raise.  QuantLib reports its
    own failures to Python as [RuntimeError]; its Python wrapper raises
    [TypeError] for an argument it cannot convert. *)
Inductive exn : Type :=
| IndexError
| ZeroDivisionError
| OverflowError
| ValueError
| TypeError
| RuntimeError (what : string).

Inductive outcome (A : Type) : Type :=
| Returned (a : A)
| Raised (e : exn).
Arguments Raised {A} e.

Definition obind {A B} (m : outcome A) (k : A -> outcome B) : outcome B :=
  match m with
  | Returned a => k a
  | Raised e => Raised e
  end.

(** A [for] loop whose body rebinds the loop-carried variables [acc]. *)
Fixpoint ofor {A V} (body : V -> A -> outcome V) (l : list A) (acc : V)
  : outcome V :=
  match l with
  | [] => Returned acc
  | x :: l' => obind (body acc x) (ofor body l')
  end.

(* ------------------------------------------------------------------ *)
(** ** QuantLib values built by the notebook *)

Inductive TimeUnit : Type := Days | Weeks | Months | Years.

Record Period : Type := mkPeriod { period_n : Z; period_units : TimeUnit }.

(** The library takes the length of a period as a C [int]. *)
Definition fits_c_int (n : Z) : bool :=
  (-2147483648 <=? n)%Z && (n <=? 2147483647)%Z.

(** [Period(n, units)] for a Python integer [n]: the wrapper raises
    [TypeError] when [n] is outside the range of a C [int]. *)
Definition new_Period (n : Z) (units : TimeUnit) : outcome Period :=
  if fits_c_int n then Returned (mkPeriod n units) else Raised TypeError.

Inductive DayCounter : Type := Actual360 | Actual365Fixed.

Inductive Month : Type :=
| January | February | March | April | May | June
| July | August | September | October | November | December.

Record Date : Type := mkDate { date_day : Z; date_month : Month; date_year : Z }.

(** [YieldTermStructureHandle(FlatForward(settlement, rate, dayCounter))]. *)
Record YieldTermStructureHandle : Type := FlatForward
  { ff_referenceDate : Date; ff_forward : float; ff_dayCounter : DayCounter }.

Record IborIndex : Type := Euribor1Y { index_curve : YieldTermStructureHandle }.

(** [QuoteHandle(SimpleQuote(value))]. *)
Record QuoteHandle : Type := SimpleQuote { quote_value : float }.

Inductive ShortRateModel : Type :=
| HullWhite (ts : YieldTermStructureHandle)
| BlackKarasinski (ts : YieldTermStructureHandle)
| G2 (ts : YieldTermStructureHandle).

Inductive PricingEngine : Type :=
| JamshidianSwaptionEngine (model : ShortRateModel)
| TreeSwaptionEngine (model : ShortRateModel) (timeSteps : Z).

(** The helper object: the eight constructor arguments of [SwaptionHelper]
    and the engine slot filled by [setPricingEngine]. *)
Record SwaptionHelper : Type := mkSwaptionHelper
  { h_maturity : Period;
    h_length : Period;
    h_volatility : QuoteHandle;
    h_index : IborIndex;
    h_fixedLegTenor : Period;
    h_fixedLegDayCounter : DayCounter;
    h_floatingLegDayCounter : DayCounter;
    h_termStructure : YieldTermStructureHandle;
    h_engine : option PricingEngine }.

Definition new_SwaptionHelper (maturity length : Period) (vol : QuoteHandle)
    (index : IborIndex) (fixedLegTenor : Period)
    (fixedLegDayCounter floatingLegDayCounter : DayCounter)
    (termStructure : YieldTermStructureHandle) : outcome SwaptionHelper :=
  Returned (mkSwaptionHelper maturity length vol index fixedLegTenor
              fixedLegDayCounter floatingLegDayCounter termStructure None).

Definition setPricingEngine (h : SwaptionHelper) (engine : PricingEngine)
  : outcome SwaptionHelper :=
  Returned (mkSwaptionHelper (h_maturity h) (h_length h) (h_volatility h)
              (h_index h) (h_fixedLegTenor h) (h_fixedLegDayCounter h)
              (h_floatingLegDayCounter h) (h_termStructure h) (Some engine)).

(* ------------------------------------------------------------------ *)
(** ** The quotes *)

(** [CalibrationData = namedtuple("CalibrationData", "start, length, volatility")] *)
Record CalibrationData : Type := mkCalibrationData
  { start : Z; length : Z; volatility : float }.

Definition today : Date := mkDate 19 February 2002.
Definition settlement : Date := mkDate 19 February 2002.

Definition term_structure : YieldTermStructureHandle :=
  FlatForward settlement 0.04875825 Actual365Fixed.

Definition index : IborIndex := Euribor1Y term_structure.

Definition data : list CalibrationData :=
  [ mkCalibrationData 1 5 0.1148;
    mkCalibrationData 2 4 0.1108;
    mkCalibrationData 3 3 0.1070;
    mkCalibrationData 4 2 0.1021;
    mkCalibrationData 5 1 0.1000 ].

(* ------------------------------------------------------------------ *)
(** ** [create_swaption_helpers] *)

Definition create_swaption_helpers (data : list CalibrationData)
    (index : IborIndex) (term_structure : YieldTermStructureHandle)
    (engine : PricingEngine) : outcome (list SwaptionHelper) :=
  let swaptions := [] in
  obind (new_Period 1 Years) (fun fixed_leg_tenor =>
  let fixed_leg_daycounter := Actual360 in
  let floating_leg_daycounter := Actual360 in
  ofor (fun swaptions d =>
          let vol_handle := SimpleQuote (volatility d) in
          obind (new_Period (start d) Years) (fun maturity =>
          obind (new_Period (length d) Years) (fun tenor =>
          obind (new_SwaptionHelper
                   maturity
                   tenor
                   vol_handle
                   index
                   fixed_leg_tenor
                   fixed_leg_daycounter
                   floating_leg_daycounter
                   term_structure)
            (fun helper =>
          obind (setPricingEngine helper engine)
            (fun helper =>
          Returned (swaptions ++ [helper]))))))
       data swaptions).

(** A quote whose start and tenor both fit a C [int]. *)
Definition quote_fits (d : CalibrationData) : bool :=
  fits_c_int (start d) && fits_c_int (length d).

(** The helper the loop body builds for one quote. *)
Definition helper_for (index : IborIndex) (ts : YieldTermStructureHandle)
    (engine : PricingEngine) (d : CalibrationData) : SwaptionHelper :=
  mkSwaptionHelper (mkPeriod (start d) Years) (mkPeriod (length d) Years)
    (SimpleQuote (volatility d)) index (mkPeriod 1 Years) Actual360 Actual360
    ts (Some engine).

(** A quote the specification calls malformed: tenor or volatility not
    positive. *)
Definition malformed (d : CalibrationData) : bool :=
  (length d <=? 0)%Z || (volatility d <=? 0)%float.

(* ------------------------------------------------------------------ *)
(** ** Python float operations used by the report *)

(** [x / y] on floats: Python raises on a zero divisor (of either sign)
    and otherwise performs the IEEE division. *)
Definition py_truediv (x y : float) : outcome float :=
  if y =? 0 then Raised ZeroDivisionError else Returned (x / y).

(** The C library under the interpreter: [libm_pow2 x] is what its
    [pow(x, 2.0)] returns.  The C standard does not ask [pow] to be
    correctly rounded, and the usual libraries are not, so the value is the
    library's and is not taken to be the rounded product [x * x]. *)
Class Libm : Type := { libm_pow2 : float -> float }.

(** [x ** 2] on floats, after CPython's [float_pow] with the exponent [2.0].
    The interpreter answers the special values itself: a NaN base, an
    infinite base (whose absolute value it returns), a zero base and, after
    a negative base is replaced by its opposite, the base [1.0].  Every
    other base goes to the library's [pow], and an infinite result is
    reported as [OverflowError] ([errno] is taken to be raised by an
    overflow only). *)
Definition py_pow2 {M : Libm} (x : float) : outcome float :=
  if is_nan x then Returned x
  else if is_infinity x then Returned (abs x)
  else if x =? 0 then Returned 0
  else
    let iv := if x <? 0 then - x else x in
    if iv =? 1 then Returned 1
    else
      let ix := libm_pow2 iv in
      if is_infinity ix then Raised OverflowError else Returned ix.

(** The float [x ** 2] evaluates to when it does not raise. *)
Definition float_pow2 {M : Libm} (x : float) : float :=
  if is_nan x then x
  else if is_infinity x then abs x
  else if x =? 0 then 0
  else
    let iv := if x <? 0 then - x else x in
    if iv =? 1 then 1 else libm_pow2 iv.

(** The C libraries' squares are never below zero; what is proved from
    this says so. *)
Definition pow2_not_negative (M : Libm) : Prop :=
  forall x, (libm_pow2 x <? 0) = false.

(** A C library whose [pow(x, 2.0)] is the correctly rounded square. *)
Definition rounded_squares : Libm := {| libm_pow2 := fun x => x * x |}.

(** [math.sqrt(x)]: a NaN result from a non-NaN argument is a domain
    error. *)
Definition math_sqrt (x : float) : outcome float :=
  let r := PrimFloat.sqrt x in
  if is_nan r && negb (is_nan x) then Raised ValueError else Returned r.

(** [l[i]] for a non-negative index. *)
Definition getitem {A} (l : list A) (i : nat) : outcome A :=
  match nth_error l i with
  | Some x => Returned x
  | None => Raised IndexError
  end.

(* ------------------------------------------------------------------ *)
(** ** The QuantLib interface and the notebook state *)

(** What the report needs from the library.  [QL] is the state of the
    library's objects (model, curve, lazily computed values); [params] and
    [curve] are what the notebook can read back from it, and the three
    methods are those the report calls on a helper.  Each method may raise
    and may change the library state. *)
Class QuantLib (QL : Type) : Type :=
  { params : QL -> list float;
    curve : QL -> YieldTermStructureHandle;
    modelValue : SwaptionHelper -> QL -> outcome float * QL;
    blackPrice : SwaptionHelper -> float -> QL -> outcome float * QL;
    impliedVolatility :
      SwaptionHelper -> float -> float -> Z -> float -> float ->
      QL -> outcome float * QL }.

(** One [print] of a format string applied to a float. *)
Inductive OutLine : Type := Printed (format : string) (value : float).

Record Notebook (QL : Type) : Type := mkNotebook
  { ql : QL; stdout : list OutLine }.

(** Statements: they run in a notebook state, return or raise, and leave a
    notebook state. *)
Definition py (QL A : Type) : Type := Notebook QL -> outcome A * Notebook QL.

Definition ret {QL A} (a : A) : py QL A := fun nb => (Returned a, nb).

Definition bind {QL A B} (m : py QL A) (k : A -> py QL B) : py QL B :=
  fun nb =>
    match m nb with
    | (Returned a, nb') => k a nb'
    | (Raised e, nb') => (Raised e, nb')
    end.

Definition lift {QL A} (o : outcome A) : py QL A := fun nb => (o, nb).

(** A call into the library: only the library state can change. *)
Definition call {QL A} (m : QL -> outcome A * QL) : py QL A :=
  fun nb => let (r, q) := m (ql nb) in (r, mkNotebook q (stdout nb)).

Definition print {QL} (format : string) (value : float) : py QL unit :=
  fun nb => (Returned tt, mkNotebook (ql nb) (stdout nb ++ [Printed format value])).

Declare Scope py_scope.
Delimit Scope py_scope with py.
Notation "x <- m ;; k" := (bind m (fun x => k))
  (at level 61, m at next level, right associativity) : py_scope.
Notation "m ;;; k" := (bind m (fun _ => k))
  (at level 61, right associativity) : py_scope.

(** [for i, x in enumerate(l)] with loop-carried variables [acc], counting
    from [i]. *)
Fixpoint for_enumerate {QL A V} (body : V -> nat -> A -> py QL V)
    (i : nat) (l : list A) (acc : V) : py QL V :=
  match l with
  | [] => ret acc
  | x :: l' => bind (body acc i x) (for_enumerate body (S i) l')
  end.

(* ------------------------------------------------------------------ *)
(** ** [calibration_report] *)

(** One tuple appended to [report_data]. *)
Record ReportRow : Type := mkRow
  { model_price : float;
    black_price : float;
    implied_vol : float;
    market_vol : float;
    rel_error : float;
    rel_error2 : float }.

Record DataFrame : Type := mkDataFrame
  { df_data : list ReportRow;
    df_columns : list string;
    df_index : list string }.

(** The variables the loop rebinds. *)
Record Locals : Type := mkLocals
  { report_data : list ReportRow; cum_err : float; cum_err2 : float }.

Definition columns : list string :=
  [ "Model Price"; "Market Price"; "Implied Vol"; "Market Vol";
    "Rel Error Price"; "Rel Error Vols" ].

Section Report.
Context {QL : Type} {L : QuantLib QL} {M : Libm}.
Local Open Scope py_scope.

(** The body of the loop for the [i]-th helper [s]. *)
Definition report_body (data : list CalibrationData)
    (acc : Locals) (i : nat) (s : SwaptionHelper) : py QL Locals :=
  model_price <- call (modelValue s) ;;
  d <- lift (getitem data i) ;;
  let market_vol := volatility d in
  black_price <- call (blackPrice s market_vol) ;;
  q <- lift (py_truediv model_price black_price) ;;
  let rel_error := q - 1.0 in
  implied_vol <- call (impliedVolatility s model_price 1e-5 50 0.0 0.50) ;;
  q2 <- lift (py_truediv implied_vol market_vol) ;;
  let rel_error2 := q2 - 1.0 in
  e <- lift (py_pow2 rel_error) ;;
  let cum_err := cum_err acc + e in
  e2 <- lift (py_pow2 rel_error2) ;;
  let cum_err2 := cum_err2 acc + e2 in
  ret (mkLocals
         (report_data acc ++
            [mkRow model_price black_price implied_vol market_vol
               rel_error rel_error2])
         cum_err cum_err2).

Definition calibration_report (swaptions : list SwaptionHelper)
    (data : list CalibrationData) : py QL DataFrame :=
  acc <- for_enumerate (report_body data) 0 swaptions (mkLocals [] 0.0 0.0) ;;
  r <- lift (math_sqrt (cum_err acc)) ;;
  print "Cumulative Error Price : %7.5f" r ;;;
  r2 <- lift (math_sqrt (cum_err2 acc)) ;;
  print "Cumulative Error Vols : %7.5f" r2 ;;;
  ret (mkDataFrame (report_data acc) columns
         (repeat EmptyString (len (report_data acc)))).
End Report.

(* ------------------------------------------------------------------ *)
(** ** A small library to run the report on *)

(** The observable library state: the model's parameter vector and the
    curve. *)
Record Market : Type := mkMarket
  { mk_params : list float; mk_curve : YieldTermStructureHandle }.

(** Per maturity (in years): the model value of the swaption and the slope
    of its Black price in the volatility. *)
Definition PriceTable : Type := list (Z * (float * float)).

Definition lookup (tbl : PriceTable) (s : SwaptionHelper)
  : outcome (float * float) :=
  match find (fun e => (fst e =? period_n (h_maturity s))%Z) tbl with
  | Some e => Returned (snd e)
  | None => Raised (RuntimeError "no pricing data")
  end.

(** A library whose Black price is linear in the volatility.  Inverting it
    is a division; as a bracketing root finder does, the inversion raises
    when the root is outside the search interval.  No method changes the
    state. *)
Definition linear_black (tbl : PriceTable) : QuantLib Market :=
  {| params := mk_params;
     curve := mk_curve;
     modelValue := fun s q => (obind (lookup tbl s) (fun e => Returned (fst e)), q);
     blackPrice := fun s vol q =>
       (obind (lookup tbl s) (fun e => Returned (snd e * vol)), q);
     impliedVolatility := fun s target tol maxEval lo hi q =>
       (obind (lookup tbl s) (fun e =>
          let v := target / snd e in
          if (lo <=? v) && (v <=? hi) then Returned v
          else Raised (RuntimeError "root not bracketed")), q) |}.

(** The same library behind a guard that refuses any inversion whose
    accuracy, evaluation budget or interval differ from the report's. *)
Definition guarded (L : QuantLib Market) : QuantLib Market :=
  {| params := @params _ L;
     curve := @curve _ L;
     modelValue := @modelValue _ L;
     blackPrice := @blackPrice _ L;
     impliedVolatility := fun s target tol maxEval lo hi q =>
       if (tol =? 1e-5) && (maxEval =? 50)%Z && (lo =? 0.0) && (hi =? 0.50)
       then @impliedVolatility _ L s target tol maxEval lo hi q
       else (Raised (RuntimeError "unexpected arguments"), q) |}.

(** A library that is not read-only: pricing a helper also overwrites the
    model's parameter vector. *)
Definition overwriting (tbl : PriceTable) : QuantLib Market :=
  {| params := mk_params;
     curve := mk_curve;
     modelValue := fun s q =>
       (obind (lookup tbl s) (fun e => Returned (fst e)),
        mkMarket [] (mk_curve q));
     blackPrice := @blackPrice _ (linear_black tbl);
     impliedVolatility := @impliedVolatility _ (linear_black tbl) |}.

Definition hw_engine : PricingEngine :=
  JamshidianSwaptionEngine (HullWhite term_structure).

(** The helpers of the Hull-White cell. *)
Definition hw_swaptions : list SwaptionHelper :=
  map (helper_for index term_structure hw_engine) data.

(** The table printed under the Hull-White cell, as price and slope
    (market price over market volatility). *)
Definition hw_table : PriceTable :=
  [ (1%Z, (0.008755, 0.009434 / 0.1148));
    (2%Z, (0.009647, 0.010051 / 0.1108));
    (3%Z, (0.008643, 0.008700 / 0.1070));
    (4%Z, (0.006476, 0.006218 / 0.1021));
    (5%Z, (0.003534, 0.003319 / 0.1000)) ].

(** The parameters printed by the Hull-White cell. *)
Definition hw_market : Market := mkMarket [0.04604; 0.00578] term_structure.

(** Two quotes and a table with exactly representable values: each model
    value is twice the Black price at the quoted volatility. *)
Definition two_quotes : list CalibrationData :=
  [ mkCalibrationData 1 5 0.25; mkCalibrationData 2 4 0.25 ].

Definition two_swaptions : list SwaptionHelper :=
  map (helper_for index term_structure hw_engine) two_quotes.

Definition two_table : PriceTable :=
  [ (1%Z, (0.25, 0.5)); (2%Z, (0.25, 0.5)) ].

(** A table whose second instrument has model value 0.5, that is an implied
    volatility of 1.0. *)
Definition steep_table : PriceTable :=
  [ (1%Z, (0.25, 0.5)); (2%Z, (0.5, 0.5)) ].

(** A quote with a zero tenor and a negative volatility. *)
Definition bad_quote : CalibrationData := mkCalibrationData 1 0 (-0.2).

(** A quote whose start, [2 ^ 31] years, is one more than the largest C
    [int]. *)
Definition wide_quote : CalibrationData := mkCalibrationData 2147483648 5 0.1.

(* ------------------------------------------------------------------ *)
(** ** Aggregates *)

(** The sum of squares as the loop accumulates it: the values of
    [e ** 2], added from [0.0], left to right. *)
Definition sum_squares {M : Libm} (l : list float) : float :=
  fold_left (fun acc e => acc + float_pow2 e) l 0.0.

(** The root of the sum of the squares. *)
Definition root_sum_squares {M : Libm} (l : list float) : float :=
  PrimFloat.sqrt (sum_squares l).

(** The root-mean-square of the specification: the root of the mean of the
    squares. *)
Definition root_mean_square {M : Libm} (l : list float) : float :=
  PrimFloat.sqrt (sum_squares l / of_uint63 (Uint63.of_Z (Z.of_nat (len l)))).

(** An observation [obs] of the library state -- the parameter vector read
    by [params], the curve, the state of a helper -- is preserved by the
    library when none of the three helper methods changes it. *)
Definition preserves {QL X} (L : QuantLib QL) (obs : QL -> X) : Prop :=
  (forall s q, obs (snd (modelValue s q)) = obs q) /\
  (forall s vol q, obs (snd (blackPrice s vol q)) = obs q) /\
  (forall s target tol maxEval lo hi q,
      obs (snd (impliedVolatility s target tol maxEval lo hi q)) = obs q).

(** Two libraries over the same state answer the report alike when they
    agree on the model value, on the Black price, and on every inversion
    requested with accuracy [1e-5], [50] evaluations and the interval
    [[0.0, 0.50]]. *)
Definition same_on_report_calls {QL} (L L' : QuantLib QL) : Prop :=
  (forall s q, @modelValue _ L s q = @modelValue _ L' s q) /\
  (forall s vol q, @blackPrice _ L s vol q = @blackPrice _ L' s vol q) /\
  (forall s target q,
      @impliedVolatility _ L s target 1e-5 50 0.0 0.50 q =
      @impliedVolatility _ L' s target 1e-5 50 0.0 0.50 q).

(** A statement that leaves the observation alone and prints at most [n]
    lines. *)
Definition quiet {QL X A} (obs : QL -> X) (n : nat) (m : py QL A) : Prop :=
  forall nb,
    obs (ql (snd (m nb))) = obs (ql nb) /\
    exists out, stdout (snd (m nb)) = stdout nb ++ out /\ (len out <= n)%nat.

(** What the loop body guarantees of the row it appends. *)
Definition row_computed (r : ReportRow) : Prop :=
  rel_error r = model_price r / black_price r - 1.0 /\
  rel_error2 r = implied_vol r / market_vol r - 1.0.

(* ------------------------------------------------------------------ *)
(** ** Recording calls *)

(** A call of one of the three helper methods, with its arguments. *)
Inductive Call : Type :=
| CallModelValue (s : SwaptionHelper)
| CallBlackPrice (s : SwaptionHelper) (vol : float)
| CallImpliedVolatility (s : SwaptionHelper) (targetValue accuracy : float)
    (maxEvaluations : Z) (minVol maxVol : float).

(** A library that behaves as [L] and keeps, beside the state of [L], the
    list of the calls made so far. *)
Definition logged {QL} (L : QuantLib QL) : QuantLib (QL * list Call) :=
  {| params := fun st => @params _ L (fst st);
     curve := fun st => @curve _ L (fst st);
     modelValue := fun s st =>
       let (r, q) := @modelValue _ L s (fst st) in
       (r, (q, snd st ++ [CallModelValue s]));
     blackPrice := fun s vol st =>
       let (r, q) := @blackPrice _ L s vol (fst st) in
       (r, (q, snd st ++ [CallBlackPrice s vol]));
     impliedVolatility := fun s target tol maxEval lo hi st =>
       let (r, q) := @impliedVolatility _ L s target tol maxEval lo hi (fst st) in
       (r, (q, snd st ++ [CallImpliedVolatility s target tol maxEval lo hi])) |}.

(** The calls the report makes for helper [s] when it ends up with row
    [r]. *)
Definition calls_for (sr : SwaptionHelper * ReportRow) : list Call :=
  let (s, r) := sr in
  [ CallModelValue s;
    CallBlackPrice s (market_vol r);
    CallImpliedVolatility s (model_price r) 1e-5 50 0.0 0.50 ].

(* ------------------------------------------------------------------ *)
(** ** Signs of binary64 values *)

(** Not below zero: NaN, a zero of either sign, plus infinity or a positive
    number. *)
Definition sf_not_negative (x : spec_float) : bool :=
  match x with
  | S754_infinity true | S754_finite true _ _ => false
  | _ => true
  end.

Definition sf_is_nan (x : spec_float) : bool :=
  match x with
  | S754_nan => true
  | _ => false
  end.

(* ------------------------------------------------------------------ *)
(** ** The calibration cells *)

(** [LevenbergMarquardt(epsfcn, xtol, gtol)]. *)
Record LevenbergMarquardt : Type := mkLevenbergMarquardt
  { lm_epsfcn : float; lm_xtol : float; lm_gtol : float }.

(** [EndCriteria(maxIterations, maxStationaryStateIterations, rootEpsilon,
    functionEpsilon, gradientNormEpsilon)]. *)
Record EndCriteria : Type := mkEndCriteria
  { maxIterations : Z;
    maxStationaryStateIterations : Z;
    rootEpsilon : float;
    functionEpsilon : float;
    gradientNormEpsilon : float }.

(** What the cells need from a model: [model.calibrate(helpers, method,
    endCriteria)], which may raise and changes the library state, and
    [model.params()]. *)
Class Calibration (QL : Type) : Type :=
  { calibrate :
      ShortRateModel -> list SwaptionHelper -> LevenbergMarquardt ->
      EndCriteria -> QL -> outcome unit * QL;
    model_params : ShortRateModel -> QL -> list float }.

(** A line of cell output: the parameters printed by a calibration cell,
    or a line printed by the report. *)
Inductive CellLine : Type :=
| ParamsLine (format : string) (values : list float)
| ReportLine (line : OutLine).

(** The state the cells share: the library, the global [swaptions] and the
    output so far. *)
Record Session (QL : Type) : Type := mkSession
  { s_lib : QL; s_swaptions : list SwaptionHelper; s_out : list CellLine }.

(** [a, sigma = v]. *)
Definition unpack2 (v : list float) : outcome (float * float) :=
  match v with
  | [a; sigma] => Returned (a, sigma)
  | _ => Raised ValueError
  end.

(** [a, sigma, b, eta, rho = v]. *)
Definition unpack5 (v : list float)
  : outcome (float * float * float * float * float) :=
  match v with
  | [a; sigma; b; eta; rho] => Returned (a, sigma, b, eta, rho)
  | _ => Raised ValueError
  end.

Section Cells.
Context {QL : Type} {L : QuantLib QL} {M : Libm} {C : Calibration QL}.

(** The Hull-White cell. *)
Definition hull_white_cell (st : Session QL) : outcome unit * Session QL :=
  let model := HullWhite term_structure in
  let engine := JamshidianSwaptionEngine model in
  match create_swaption_helpers data index term_structure engine with
  | Raised e => (Raised e, st)
  | Returned swaptions =>
  let optimization_method := mkLevenbergMarquardt 1.0e-8 1.0e-8 1.0e-8 in
  let end_criteria := mkEndCriteria 10000 100 1e-6 1e-8 1e-8 in
  match calibrate model swaptions optimization_method end_criteria (s_lib st) with
  | (Raised e, q) => (Raised e, mkSession q swaptions (s_out st))
  | (Returned _, q) =>
  match unpack2 (model_params model q) with
  | Raised e => (Raised e, mkSession q swaptions (s_out st))
  | Returned (a, sigma) =>
      (Returned tt,
       mkSession q swaptions
         (s_out st ++
            [ParamsLine
               "a = %6.5f, sigma = %6.5f"
               [a; sigma]]))
  end
  end
  end.

(** The Black-Karasinski cell. *)
Definition black_karasinski_cell (st : Session QL) : outcome unit * Session QL :=
  let model := BlackKarasinski term_structure in
  let engine := TreeSwaptionEngine model 100 in
  match create_swaption_helpers data index term_structure engine with
  | Raised e => (Raised e, st)
  | Returned swaptions =>
  let optimization_method := mkLevenbergMarquardt 1.0e-8 1.0e-8 1.0e-8 in
  let end_criteria := mkEndCriteria 10000 100 1e-6 1e-8 1e-8 in
  match calibrate model swaptions optimization_method end_criteria (s_lib st) with
  | (Raised e, q) => (Raised e, mkSession q swaptions (s_out st))
  | (Returned _, q) =>
  match unpack2 (model_params model q) with
  | Raised e => (Raised e, mkSession q swaptions (s_out st))
  | Returned (a, sigma) =>
      (Returned tt,
       mkSession q swaptions
         (s_out st ++
            [ParamsLine
               "a = %6.5f, sigma = %6.5f"
               [a; sigma]]))
  end
  end
  end.

(** The G2++ cell. *)
Definition g2_cell (st : Session QL) : outcome unit * Session QL :=
  let model := G2 term_structure in
  let engine := TreeSwaptionEngine model 25 in
  match create_swaption_helpers data index term_structure engine with
  | Raised e => (Raised e, st)
  | Returned swaptions =>
  let optimization_method := mkLevenbergMarquardt 1.0e-8 1.0e-8 1.0e-8 in
  let end_criteria := mkEndCriteria 1000 100 1e-6 1e-8 1e-8 in
  match calibrate model swaptions optimization_method end_criteria (s_lib st) with
  | (Raised e, q) => (Raised e, mkSession q swaptions (s_out st))
  | (Returned _, q) =>
  match unpack5 (model_params model q) with
  | Raised e => (Raised e, mkSession q swaptions (s_out st))
  | Returned (a, sigma, b, eta, rho) =>
      (Returned tt,
       mkSession q swaptions
         (s_out st ++
            [ParamsLine
               "a = %6.5f, sigma = %6.5f, b = %6.5f, eta = %6.5f, rho = %6.5f "
               [a; sigma; b; eta; rho]]))
  end
  end
  end.

(** The cell [calibration_report(swaptions, data)]: its value is the
    table. *)
Definition report_cell (st : Session QL) : outcome DataFrame * Session QL :=
  let (r, nb) :=
    calibration_report (s_swaptions st) data (mkNotebook (s_lib st) []) in
  (r, mkSession (ql nb) (s_swaptions st)
        (s_out st ++ map ReportLine (stdout nb))).
End Cells.

(** The three calibration cells with the model, the engine and the number
    of parameters each one unpacks. *)
Definition cell_model (k : nat) : ShortRateModel :=
  match k with
  | 0%nat => HullWhite term_structure
  | 1%nat => BlackKarasinski term_structure
  | _ => G2 term_structure
  end.

Definition cell_engine (k : nat) : PricingEngine :=
  match k with
  | 0%nat => JamshidianSwaptionEngine (HullWhite term_structure)
  | 1%nat => TreeSwaptionEngine (BlackKarasinski term_structure) 100
  | _ => TreeSwaptionEngine (G2 term_structure) 25
  end.

Definition cell_arity (k : nat) : nat :=
  match k with
  | 0%nat | 1%nat => 2%nat
  | _ => 5%nat
  end.

Definition calibration_cell {QL} {C : Calibration QL} (k : nat)
  : Session QL -> outcome unit * Session QL :=
  match k with
  | 0%nat => hull_white_cell
  | 1%nat => black_karasinski_cell
  | _ => g2_cell
  end.

Definition cell_end_criteria (k : nat) : EndCriteria :=
  match k with
  | 0%nat | 1%nat => mkEndCriteria 10000 100 1e-6 1e-8 1e-8
  | _ => mkEndCriteria 1000 100 1e-6 1e-8 1e-8
  end.

Definition cell_format (k : nat) : string :=
  match k with
  | 0%nat | 1%nat => "a = %6.5f, sigma = %6.5f"
  | _ => "a = %6.5f, sigma = %6.5f, b = %6.5f, eta = %6.5f, rho = %6.5f "
  end.

(** The helpers a calibration cell builds. *)
Definition cell_swaptions (k : nat) : list SwaptionHelper :=
  map (helper_for index term_structure (cell_engine k)) data.

(** A calibration that stores the vector [v] as the model's parameters,
    whatever the helpers. *)
Definition storing (v : list float) : Calibration Market :=
  {| calibrate := fun model helpers method end_criteria q =>
       (Returned tt, mkMarket v (mk_curve q));
     model_params := fun model q => mk_params q |}.

(** A library none of whose three methods ever raises. *)
Definition always_returns {QL} (L : QuantLib QL) : Prop :=
  (forall s q, exists v q', modelValue s q = (Returned v, q')) /\
  (forall s vol q, exists v q', blackPrice s vol q = (Returned v, q')) /\
  (forall s target tol maxEval lo hi q,
      exists v q',
        impliedVolatility s target tol maxEval lo hi q = (Returned v, q')).

(** A library that prices every helper alike and never raises: model
    value [0.25], Black price half the volatility, and its inverse. *)
Definition uniform_black : QuantLib Market :=
  {| params := mk_params;
     curve := mk_curve;
     modelValue := fun s q => (Returned 0.25, q);
     blackPrice := fun s vol q => (Returned (0.5 * vol), q);
     impliedVolatility := fun s target tol maxEval lo hi q =>
       (Returned (target / 0.5), q) |}.

(** A table whose first instrument has a Black price of zero at every
    volatility. *)
Definition flat_table : PriceTable :=
  [ (1%Z, (0.25, 0.0)); (2%Z, (0.25, 0.5)) ].

(* ------------------------------------------------------------------ *)
(** ** The simulation cell *)

(** The parameters the cell sets. *)
Definition a_hw : float := 0.04604.
Definition sigma_hw : float := 0.00578.
Definition a_bk : float := 0.03921.
Definition sigma_bk : float := 0.11642.
Definition a_g2 : float := 0.04435.
Definition sigma_g2 : float := 0.00300.
Definition b_g2 : float := 0.03998.
Definition eta_g2 : float := 0.00472.
Definition rho_g2 : float := 0.0.

Definition r0 : float := 0.01.
(** [T = 5] is an integer; [T/dt] divides it as the float [5.0]. *)
Definition T : float := 5.
Definition dt : float := 1 / 252.

(** [int(x)] on a float: truncation toward zero; infinities and NaN
    raise. *)
Definition py_int (x : float) : outcome Z :=
  match Prim2SF x with
  | S754_zero _ => Returned 0%Z
  | S754_finite s m e => Returned (cond_Zopp s (Z.shiftl (Zpos m) e))
  | S754_infinity _ => Raised OverflowError
  | S754_nan => Raised ValueError
  end.

Definition n_steps : outcome Z := py_int (T / dt).
Definition n_paths : nat := 100.

(** [np.zeros((n, m))] as a list of [n] rows. *)
Definition zeros (n m : nat) : list (list float) := repeat (repeat 0 m) n.

(** [l[i] = x] for a non-negative index. *)
Definition setitem {A} (l : list A) (i : nat) (x : A) : outcome (list A) :=
  if (i <? len l)%nat
  then Returned (firstn i l ++ x :: skipn (S i) l)
  else Raised IndexError.

(** [M[t, :] = v] for a scalar [v]. *)
Definition fill_row (M : list (list float)) (t : nat) (v : float)
  : outcome (list (list float)) :=
  obind (getitem M t) (fun row => setitem M t (map (fun _ => v) row)).

(** [M[t, :] = vec] for a vector of the length of the row. *)
Definition assign_row (M : list (list float)) (t : nat) (vec : list float)
  : outcome (list (list float)) :=
  obind (getitem M t) (fun row =>
    if (len vec =? len row)%nat then setitem M t vec else Raised ValueError).

(** An elementwise expression in two vectors of the same length. *)
Definition elementwise (f : float -> float -> float) (x y : list float)
  : outcome (list float) :=
  if (len x =? len y)%nat
  then Returned (map (fun p => f (fst p) (snd p)) (combine x y))
  else Raised ValueError.

(** The three arrays of simulated rates. *)
Record Rates : Type := mkRates
  { hw_of : list (list float);
    bk_of : list (list float);
    g2_of : list (list float) }.

Section Simulation.
(** NumPy's logarithm and exponential, and the normal draws: [draws t j]
    is row [j] of the array [np.random.normal(0, sqrt_dt, (n_paths, 2))]
    drawn at step [t]. *)
Variables (np_log np_exp : float -> float) (draws : nat -> nat -> float * float).

(** The body of the loop at step [t], for [m] paths. *)
Definition simulation_body (m : nat) (st : Rates) (t : nat) : outcome Rates :=
  let dw := map (draws t) (seq 0 m) in
  let dw0 := map fst dw in
  obind (getitem (hw_of st) (t - 1)) (fun prev =>
  obind (elementwise
           (fun r w => r + a_hw * (r0 - r) * dt + sigma_hw * w) prev dw0)
    (fun row =>
  obind (assign_row (hw_of st) t row) (fun rates_hw =>
  obind (getitem (bk_of st) (t - 1)) (fun prev =>
  obind (elementwise
           (fun r w => r + a_bk * (np_log r0 - r) * dt + sigma_bk * w) prev dw0)
    (fun row =>
  obind (assign_row (bk_of st) t row) (fun rates_bk =>
  obind (getitem (g2_of st) (t - 1)) (fun prev =>
  obind (elementwise
           (fun r w => r + a_g2 * (r0 - r) * dt + sigma_g2 * w) prev dw0)
    (fun row =>
  obind (assign_row (g2_of st) t row) (fun rates_g2 =>
  Returned (mkRates rates_hw rates_bk rates_g2)))))))))).

(** The simulation for [n] steps and [m] paths. *)
Definition simulate_rates (n m : nat) : outcome Rates :=
  let rates_hw := zeros n m in
  let rates_bk := zeros n m in
  let rates_g2 := zeros n m in
  obind (fill_row rates_hw 0 r0) (fun rates_hw =>
  obind (fill_row rates_bk 0 (np_log r0)) (fun rates_bk =>
  obind (fill_row rates_g2 0 r0) (fun rates_g2 =>
  obind (ofor (simulation_body m) (seq 1 (n - 1))
           (mkRates rates_hw rates_bk rates_g2))
    (fun st =>
  let rates_bk := map (map np_exp) (bk_of st) in
  Returned (mkRates (hw_of st) rates_bk (g2_of st)))))).

(** The cell up to the arrays it plots.  The time axis [np.linspace(0, T,
    n_steps)] only labels the plots, and [sqrt_dt] only scales the draws,
    which are given here. *)
Definition simulation : outcome Rates :=
  obind n_steps (fun n =>
    if (n <? 0)%Z then Raised ValueError
    else simulate_rates (Z.to_nat n) n_paths).

(** The first column of the draws of step [t]. *)
Definition first_factor (m t : nat) : list float :=
  map fst (map (draws t) (seq 0 m)).

(** The rows a one-factor update [step] produces from row [prev] in [k]
    steps starting at step [t]. *)
Fixpoint path_rows (step : float -> float -> float) (m t k : nat)
    (prev : list float) : list (list float) :=
  match k with
  | O => []
  | S k' =>
      let row :=
        map (fun p => step (fst p) (snd p)) (combine prev (first_factor m t)) in
      row :: path_rows step m (S t) k' row
  end.
End Simulation.

(** The one-factor update with mean-reversion speed [a], level [level] and
    volatility [sigma]. *)
Definition one_factor_step (a level sigma : float) (r w : float) : float :=
  r + a * (level - r) * dt + sigma * w.

(* ------------------------------------------------------------------ *)
(** * Properties of [create_swaption_helpers] *)

Lemma create_loop_run index ts engine (data : list CalibrationData) :
  forall acc : list SwaptionHelper,
    ofor (fun swaptions d =>
            obind (new_Period (start d) Years) (fun maturity =>
            obind (new_Period (length d) Years) (fun tenor =>
            obind (new_SwaptionHelper maturity tenor (SimpleQuote (volatility d))
                     index (mkPeriod 1 Years) Actual360 Actual360 ts)
              (fun helper =>
            obind (setPricingEngine helper engine)
              (fun helper => Returned (swaptions ++ [helper]))))))
         data acc
    = if forallb quote_fits data
      then Returned (acc ++ map (helper_for index ts engine) data)
      else Raised TypeError.
Proof.
  induction data as [|d data IH]; intros acc; cbn [ofor map forallb].
  - now rewrite app_nil_r.
  - unfold quote_fits at 1, new_Period at 1 2.
    destruct (fits_c_int (start d)); cbn [obind andb]; [|reflexivity].
    destruct (fits_c_int (length d)); cbn [obind andb]; [|reflexivity].
    cbn [new_SwaptionHelper setPricingEngine obind]. cbn.
    rewrite IH. unfold helper_for.
    destruct (forallb quote_fits data); [|reflexivity].
    now rewrite <- app_assoc.
Qed.

(** The call returns the helpers of the quotes, in order, when the start
    and the tenor of every quote fit a C [int], and raises [TypeError]
    otherwise. *)
Lemma create_swaption_helpers_run data index ts engine :
  create_swaption_helpers data index ts engine
  = if forallb quote_fits data
    then Returned (map (helper_for index ts engine) data)
    else Raised TypeError.
Proof.
  unfold create_swaption_helpers. cbn [new_Period fits_c_int obind].
  change (new_Period 1 Years) with (Returned (mkPeriod 1 Years)).
  cbn [obind]. apply create_loop_run.
Qed.

Lemma create_swaption_helpers_map data index ts engine :
  forallb quote_fits data = true ->
  create_swaption_helpers data index ts engine
  = Returned (map (helper_for index ts engine) data).
Proof.
  intros Hfit. now rewrite create_swaption_helpers_run, Hfit.
Qed.

Lemma create_swaption_helpers_returned data index ts engine swaptions :
  create_swaption_helpers data index ts engine = Returned swaptions ->
  forallb quote_fits data = true /\
  swaptions = map (helper_for index ts engine) data.
Proof.
  rewrite create_swaption_helpers_run.
  destruct (forallb quote_fits data); [|discriminate].
  now intros [= <-].
Qed.

(** C5, as stated, fails: the start of [wide_quote] is a Python integer
    that does not fit the C [int] a [Period] is built from, and the call
    raises [TypeError] instead of returning a list. *)
Lemma create_swaption_helpers_rejects_wide_start :
  create_swaption_helpers [wide_quote] index term_structure hw_engine
  = Raised TypeError.
Proof. reflexivity. Qed.

(** C5, amended: when the start and the tenor of every quote fit a C
    [int], [create_swaption_helpers] returns a list of the same length with
    the helper of the [i]-th quote at position [i]: maturity and length are
    the quote's start and tenor in years, the volatility handle holds the
    quote's volatility, and the helper is bound to the given index, curve
    and engine.  When some start or tenor does not fit, the call raises
    [TypeError] and returns no list. *)
Theorem create_swaption_helpers_one_per_quote :
  forall data index ts engine,
    (forallb quote_fits data = true ->
     exists swaptions,
       create_swaption_helpers data index ts engine = Returned swaptions /\
       len swaptions = len data /\
       forall i d, nth_error data i = Some d ->
         exists h, nth_error swaptions i = Some h /\
           h_maturity h = mkPeriod (start d) Years /\
           h_length h = mkPeriod (length d) Years /\
           quote_value (h_volatility h) = volatility d /\
           h_index h = index /\
           h_termStructure h = ts /\
           h_engine h = Some engine) /\
    (forallb quote_fits data = false ->
     create_swaption_helpers data index ts engine = Raised TypeError).
Proof.
  intros data index ts engine. split; intros Hfit.
  - exists (map (helper_for index ts engine) data).
    split; [now apply create_swaption_helpers_map|].
    split; [apply length_map|].
    intros i d Hd.
    exists (helper_for index ts engine d).
    split; [now apply map_nth_error|].
    repeat split.
  - now rewrite create_swaption_helpers_run, Hfit.
Qed.

(** The five quotes of the notebook fit, and give five helpers. *)
Lemma create_swaption_helpers_one_per_quote_witness :
  forallb quote_fits data = true /\
  exists swaptions,
    create_swaption_helpers data index term_structure hw_engine
    = Returned swaptions /\
    len swaptions = 5%nat /\
    forall i d, nth_error data i = Some d ->
      exists h, nth_error swaptions i = Some h /\
        h_maturity h = mkPeriod (start d) Years /\
        h_length h = mkPeriod (length d) Years /\
        quote_value (h_volatility h) = volatility d /\
        h_index h = index /\
        h_termStructure h = term_structure /\
        h_engine h = Some hw_engine.
Proof.
  split; [reflexivity|].
  apply (proj1 (create_swaption_helpers_one_per_quote
                  data index term_structure hw_engine)).
  reflexivity.
Defined.

(** C7, as stated, fails: a quote with tenor [0] and volatility [-0.2] is
    malformed, yet the call returns a helper for it. *)
Lemma malformed_quote_accepted :
  malformed bad_quote = true /\
  create_swaption_helpers [bad_quote] index term_structure hw_engine
  = Returned [helper_for index term_structure hw_engine bad_quote].
Proof. split; reflexivity. Qed.

(** C7, amended: neither the tenor nor the volatility of a quote is
    validated at construction.  The only failure of the call is the
    [TypeError] of a start or tenor that does not fit a C [int], whether the
    quote is malformed or not; and when every start and tenor fits, the
    call returns, and the helper built for a malformed quote carries the
    quote's non-positive tenor or volatility unchanged. *)
Theorem create_swaption_helpers_no_validation :
  forall data index ts engine,
    (forall e,
        create_swaption_helpers data index ts engine = Raised e ->
        e = TypeError /\ forallb quote_fits data = false) /\
    (forallb quote_fits data = true ->
     exists swaptions,
       create_swaption_helpers data index ts engine = Returned swaptions /\
       forall i d,
         nth_error data i = Some d ->
         malformed d = true ->
         exists h,
           nth_error swaptions i = Some h /\
           period_n (h_length h) = length d /\
           quote_value (h_volatility h) = volatility d /\
           ((period_n (h_length h) <=? 0)%Z
            || (quote_value (h_volatility h) <=? 0)%float) = true).
Proof.
  intros data index ts engine. split.
  - intros e. rewrite create_swaption_helpers_run.
    destruct (forallb quote_fits data); [discriminate|].
    now intros [= <-].
  - intros Hfit. eexists.
    split; [now apply create_swaption_helpers_map|].
    intros i d Hd Hbad. eexists.
    split; [apply map_nth_error; exact Hd|].
    cbn. auto.
Qed.

(** The malformed quote [bad_quote] fits and goes through unchanged. *)
Lemma create_swaption_helpers_no_validation_witness :
  forallb quote_fits [bad_quote] = true /\
  nth_error [bad_quote] 0 = Some bad_quote /\
  malformed bad_quote = true /\
  exists swaptions h,
    create_swaption_helpers [bad_quote] index term_structure hw_engine
    = Returned swaptions /\
    nth_error swaptions 0 = Some h /\
    period_n (h_length h) = 0%Z /\
    quote_value (h_volatility h) = (-0.2)%float /\
    ((period_n (h_length h) <=? 0)%Z
     || (quote_value (h_volatility h) <=? 0)%float) = true.
Proof.
  repeat (split; [reflexivity|]).
  destruct (proj2 (create_swaption_helpers_no_validation
                     [bad_quote] index term_structure hw_engine)
              eq_refl) as (swaptions & Hrun & Hall).
  destruct (Hall 0%nat bad_quote eq_refl eq_refl) as (h & Hh).
  exists swaptions, h. split; [exact Hrun|exact Hh].
Defined.

(* ------------------------------------------------------------------ *)
(** * Running statements *)

Section Running.
Context {QL : Type} {L : QuantLib QL} {M : Libm}.

Lemma bind_returned A B (m : py QL A) (k : A -> py QL B) nb b nb' :
  bind m k nb = (Returned b, nb') ->
  exists a nb1, m nb = (Returned a, nb1) /\ k a nb1 = (Returned b, nb').
Proof.
  unfold bind. destruct (m nb) as [[a|e] nb1]; intros H.
  - now exists a, nb1.
  - discriminate.
Qed.

Lemma call_returned A (m : QL -> outcome A * QL) nb a nb' :
  call m nb = (Returned a, nb') ->
  exists q, m (ql nb) = (Returned a, q) /\ nb' = mkNotebook q (stdout nb).
Proof.
  unfold call. destruct (m (ql nb)) as [r q]. intros [= -> <-].
  now exists q.
Qed.

Lemma lift_returned A (o : outcome A) (nb : Notebook QL) a nb' :
  lift o nb = (Returned a, nb') -> o = Returned a /\ nb' = nb.
Proof. unfold lift. now intros [= -> <-]. Qed.

Lemma py_truediv_returned x y q :
  py_truediv x y = Returned q -> (y =? 0) = false /\ q = x / y.
Proof.
  unfold py_truediv. destruct (y =? 0); [discriminate|].
  now intros [= <-].
Qed.

Lemma py_pow2_returned x e : py_pow2 x = Returned e -> e = float_pow2 x.
Proof.
  unfold py_pow2, float_pow2.
  destruct (is_nan x); [now intros [= <-]|].
  destruct (is_infinity x); [now intros [= <-]|].
  destruct (x =? 0); [now intros [= <-]|].
  destruct ((if x <? 0 then - x else x) =? 1); [now intros [= <-]|].
  destruct (is_infinity (libm_pow2 (if x <? 0 then - x else x)));
    [discriminate|].
  now intros [= <-].
Qed.

Lemma py_pow2_raised x e : py_pow2 x = Raised e -> e = OverflowError.
Proof.
  unfold py_pow2.
  destruct (is_nan x); [discriminate|].
  destruct (is_infinity x); [discriminate|].
  destruct (x =? 0); [discriminate|].
  destruct ((if x <? 0 then - x else x) =? 1); [discriminate|].
  destruct (is_infinity (libm_pow2 (if x <? 0 then - x else x)));
    [|discriminate].
  now intros [= <-].
Qed.

Lemma math_sqrt_returned x r : math_sqrt x = Returned r -> r = PrimFloat.sqrt x.
Proof.
  unfold math_sqrt.
  destruct (is_nan (PrimFloat.sqrt x) && negb (is_nan x)); [discriminate|].
  now intros [= <-].
Qed.

Lemma bind_assoc A B C (m : py QL A) (f : A -> py QL B) (g : B -> py QL C) nb :
  bind (bind m f) g nb = bind m (fun a => bind (f a) g) nb.
Proof.
  unfold bind. destruct (m nb) as [[a|e] nb1]; reflexivity.
Qed.

Lemma bind_ext A B (m : py QL A) (f g : A -> py QL B) nb :
  (forall a nb1, f a nb1 = g a nb1) -> bind m f nb = bind m g nb.
Proof.
  intros Hfg. unfold bind. destruct (m nb) as [[a|e] nb1]; auto.
Qed.

Lemma for_enumerate_app A V (body : V -> nat -> A -> py QL V) pre :
  forall post i acc nb,
    for_enumerate body i (pre ++ post) acc nb
    = bind (for_enumerate body i pre acc)
           (for_enumerate body (i + len pre) post) nb.
Proof.
  induction pre as [|x pre IH]; intros post i acc nb; cbn [app for_enumerate len].
  - unfold bind, ret. now rewrite Nat.add_0_r.
  - rewrite bind_assoc. apply bind_ext. intros a nb1.
    rewrite Nat.add_succ_r. apply (IH post (S i)).
Qed.
End Running.

(** Splits a run of [bind] that returned into its first statement and the
    rest. *)
Ltac run_bind H :=
  let a := fresh "x" in
  let nb1 := fresh "nb" in
  let H1 := fresh "Hrun" in
  apply bind_returned in H; destruct H as (a & nb1 & H1 & H).

(* ------------------------------------------------------------------ *)
(** * The aggregates of [calibration_report] *)

Section Aggregates.
Context {QL : Type} {L : QuantLib QL} {M : Libm}.

(** One turn of the loop: a row is appended and its squared errors are
    added to the two accumulators; nothing is printed. *)
Lemma report_body_returned data acc i s (nb : Notebook QL) acc' nb' :
  report_body data acc i s nb = (Returned acc', nb') ->
  stdout nb' = stdout nb /\
  exists r,
    report_data acc' = report_data acc ++ [r] /\
    cum_err acc' = cum_err acc + float_pow2 (rel_error r) /\
    cum_err2 acc' = cum_err2 acc + float_pow2 (rel_error2 r) /\
    row_computed r.
Proof.
  unfold report_body. intros H.
  run_bind H. apply call_returned in Hrun as (q1 & _ & ->).
  run_bind H. apply lift_returned in Hrun as (_ & ->).
  run_bind H. apply call_returned in Hrun as (q2 & _ & ->).
  run_bind H. apply lift_returned in Hrun as (Hdiv & ->).
  run_bind H. apply call_returned in Hrun as (q3 & _ & ->).
  run_bind H. apply lift_returned in Hrun as (Hdiv2 & ->).
  run_bind H. apply lift_returned in Hrun as (Hpow & ->).
  run_bind H. apply lift_returned in Hrun as (Hpow2 & ->).
  apply py_truediv_returned in Hdiv as [_ ->].
  apply py_truediv_returned in Hdiv2 as [_ ->].
  apply py_pow2_returned in Hpow as ->.
  apply py_pow2_returned in Hpow2 as ->.
  unfold ret in H. injection H as <- <-. cbn.
  split; [reflexivity|].
  eexists; repeat split; reflexivity.
Qed.

(** The loop: one row per helper, and each accumulator is the running
    sum of the squared errors of the new rows. *)
Lemma report_loop_returned data swaptions :
  forall i acc (nb : Notebook QL) acc' nb',
    for_enumerate (report_body data) i swaptions acc nb = (Returned acc', nb') ->
    stdout nb' = stdout nb /\
    exists rows,
      report_data acc' = report_data acc ++ rows /\
      len rows = len swaptions /\
      cum_err acc' =
        fold_left (fun a e => a + float_pow2 e) (map rel_error rows)
          (cum_err acc) /\
      cum_err2 acc' =
        fold_left (fun a e => a + float_pow2 e) (map rel_error2 rows)
          (cum_err2 acc) /\
      Forall row_computed rows.
Proof.
  induction swaptions as [|s swaptions IH]; intros i acc nb acc' nb' H;
    cbn [for_enumerate] in H.
  - injection H as <- <-. split; [reflexivity|].
    exists []. rewrite app_nil_r. repeat split. constructor.
  - run_bind H.
    apply report_body_returned in Hrun as (Hout & r & Hr & He & He2 & Hrow).
    apply IH in H as (Hout' & rows & Hrows & Hlen & Hc & Hc2 & Hall).
    split; [congruence|].
    exists (r :: rows). cbn [map fold_left len].
    rewrite Hrows, Hr, <- app_assoc, Hc, Hc2, He, He2, Hlen.
    repeat split. now constructor.
Qed.
End Aggregates.

(** C3, amended: whenever [calibration_report] returns, the table has one
    computed row per helper and the two printed scalars are the square
    roots of the SUMS of the squared relative price errors and of the
    squared relative volatility errors of the rows (added from [0.0] in row
    order); no division by the number of instruments takes place.  The
    squares are the values of [rel_error ** 2] and [rel_error2 ** 2] as the
    interpreter computes them, with the [pow] of whatever C library [M] it
    runs on. *)
Theorem cumulative_errors_root_sum_squares :
  forall QL (L : QuantLib QL) (M : Libm) swaptions data (nb : Notebook QL)
         df nb',
    calibration_report swaptions data nb = (Returned df, nb') ->
    len (df_data df) = len swaptions /\
    Forall row_computed (df_data df) /\
    stdout nb' = stdout nb ++
      [ Printed "Cumulative Error Price : %7.5f"
          (root_sum_squares (map rel_error (df_data df)));
        Printed "Cumulative Error Vols : %7.5f"
          (root_sum_squares (map rel_error2 (df_data df))) ].
Proof.
  intros QL L M swaptions data nb df nb' H.
  unfold calibration_report in H.
  run_bind H.
  apply report_loop_returned in Hrun as (Hout & rows & Hrows & Hlen & Hc & Hc2 & Hall).
  cbn in Hrows, Hc, Hc2. subst rows.
  run_bind H. apply lift_returned in Hrun as (Hs & ->).
  run_bind H. unfold print in Hrun. injection Hrun as _ <-.
  run_bind H. apply lift_returned in Hrun as (Hs2 & ->).
  run_bind H. unfold print in Hrun. injection Hrun as _ <-.
  unfold ret in H. injection H as <- <-.
  apply math_sqrt_returned in Hs, Hs2. subst.
  cbn [df_data stdout ql].
  repeat split; try assumption.
  rewrite Hout, <- app_assoc. unfold root_sum_squares, sum_squares.
  now rewrite Hc, Hc2.
Qed.

(** The run on the table of the Hull-White cell returns, and its printed
    scalars are the roots of the sums of the squared errors of its five
    rows (here with a C library that rounds squares correctly). *)
Lemma cumulative_errors_root_sum_squares_witness :
  exists df nb',
    calibration_report (L := linear_black hw_table) (M := rounded_squares)
      hw_swaptions data (mkNotebook hw_market []) = (Returned df, nb') /\
    len (df_data df) = 5%nat /\
    Forall row_computed (df_data df) /\
    stdout nb' =
      [ Printed "Cumulative Error Price : %7.5f"
          (root_sum_squares (M := rounded_squares)
             (map rel_error (df_data df)));
        Printed "Cumulative Error Vols : %7.5f"
          (root_sum_squares (M := rounded_squares)
             (map rel_error2 (df_data df))) ].
Proof.
  eexists; eexists.
  split; [vm_compute; reflexivity|].
  apply (@cumulative_errors_root_sum_squares Market (linear_black hw_table)
           rounded_squares hw_swaptions data (mkNotebook hw_market [])).
  vm_compute; reflexivity.
Defined.

(** C3, as stated, fails: for two instruments whose relative errors are
    both [1.0] the report prints the square root of [2.0] twice, while the
    root of the mean of the squared errors is [1.0].  The interpreter
    answers [1.0 ** 2] itself, so the C library plays no part in this
    run. *)
Lemma cumulative_error_is_not_rms :
  exists df nb',
    calibration_report (L := linear_black two_table) (M := rounded_squares)
      two_swaptions two_quotes (mkNotebook hw_market []) = (Returned df, nb') /\
    two_swaptions <> [] /\
    map rel_error (df_data df) = [1; 1] /\
    map rel_error2 (df_data df) = [1; 1] /\
    stdout nb' =
      [ Printed "Cumulative Error Price : %7.5f" (PrimFloat.sqrt 2);
        Printed "Cumulative Error Vols : %7.5f" (PrimFloat.sqrt 2) ] /\
    root_mean_square (M := rounded_squares) [1; 1] = 1 /\
    PrimFloat.sqrt 2 <> 1.
Proof.
  eexists; eexists.
  split; [vm_compute; reflexivity|].
  split; [discriminate|].
  repeat (split; [vm_compute; reflexivity|]).
  intros H.
  apply (f_equal (fun v => v =? 1)) in H.
  vm_compute in H. discriminate.
Qed.

(** The same run on any C library: the squares of [1.0] never reach its
    [pow]. *)
Example unit_errors_on_any_library :
  forall M : Libm,
  exists df nb',
    calibration_report (L := linear_black two_table)
      two_swaptions two_quotes (mkNotebook hw_market []) = (Returned df, nb') /\
    map rel_error (df_data df) = [1; 1] /\
    stdout nb' =
      [ Printed "Cumulative Error Price : %7.5f" (PrimFloat.sqrt 2);
        Printed "Cumulative Error Vols : %7.5f" (PrimFloat.sqrt 2) ] /\
    root_mean_square [1; 1] = 1.
Proof.
  intros M. eexists; eexists.
  repeat split; vm_compute; reflexivity.
Qed.

(** The table printed under the Hull-White cell, fed back through the
    report on a C library that rounds squares correctly: the first printed
    scalar is about [0.113], as in the notebook's output, while the
    root-mean-square of the same errors is about [0.0505]. *)
Example hw_recorded_report :
  exists df v v2,
    calibration_report (L := linear_black hw_table) (M := rounded_squares)
      hw_swaptions data (mkNotebook hw_market [])
    = (Returned df,
       mkNotebook hw_market
         [ Printed "Cumulative Error Price : %7.5f" v;
           Printed "Cumulative Error Vols : %7.5f" v2 ]) /\
    ((0.1125 <? v) && (v <? 0.1135)) = true /\
    ((0.050 <? root_mean_square (M := rounded_squares)
                 (map rel_error (df_data df)))
     && (root_mean_square (M := rounded_squares)
           (map rel_error (df_data df)) <? 0.051)) = true.
Proof.
  do 3 eexists.
  split; [vm_compute; reflexivity|].
  split; vm_compute; reflexivity.
Qed.

(* ------------------------------------------------------------------ *)
(** * What the report leaves unchanged *)

Section Frame.
Context {QL X : Type} {L : QuantLib QL} {M : Libm} (obs : QL -> X).

Lemma quiet_ret A (a : A) : quiet obs 0 (ret a).
Proof.
  intros nb. cbn. split; [reflexivity|]. exists []. now rewrite app_nil_r.
Qed.

Lemma quiet_lift A (o : outcome A) : quiet obs 0 (lift o).
Proof.
  intros nb. cbn. split; [reflexivity|]. exists []. now rewrite app_nil_r.
Qed.

Lemma quiet_print format value : quiet obs 1 (print format value).
Proof.
  intros nb. cbn. split; [reflexivity|]. now exists [Printed format value].
Qed.

Lemma quiet_call A (m : QL -> outcome A * QL) :
  (forall q, obs (snd (m q)) = obs q) -> quiet obs 0 (call m).
Proof.
  intros Hm nb. unfold call. specialize (Hm (ql nb)).
  destruct (m (ql nb)) as [r q]. cbn in *.
  split; [assumption|]. exists []. now rewrite app_nil_r.
Qed.

Lemma quiet_bind A B n k (m : py QL A) (f : A -> py QL B) :
  quiet obs n m -> (forall a, quiet obs k (f a)) -> quiet obs (n + k) (bind m f).
Proof.
  intros Hm Hf nb. unfold bind.
  destruct (Hm nb) as (Hobs & out & Hout & Hlen).
  destruct (m nb) as [[a|e] nb1]; cbn [snd] in *.
  - destruct (Hf a nb1) as (Hobs' & out' & Hout' & Hlen').
    split; [congruence|].
    exists (out ++ out'). rewrite Hout', Hout, app_assoc, length_app.
    split; [reflexivity|lia].
  - split; [assumption|]. exists out. split; [assumption|lia].
Qed.

Hypothesis Hobs : preserves L obs.

Lemma quiet_report_body data acc i s : quiet obs 0 (report_body data acc i s).
Proof.
  destruct Hobs as (Hm & Hb & Hi). unfold report_body.
  repeat first
    [ apply (@quiet_bind _ _ 0 0); [|intros ?]
    | apply quiet_ret
    | apply quiet_lift
    | apply quiet_call; intros q; auto ].
Qed.

Lemma quiet_report_loop data swaptions :
  forall i acc, quiet obs 0 (for_enumerate (report_body data) i swaptions acc).
Proof.
  induction swaptions as [|s swaptions IH]; intros i acc; cbn [for_enumerate].
  - apply quiet_ret.
  - apply (@quiet_bind _ _ 0 0); [apply quiet_report_body|].
    intros acc'. apply IH.
Qed.

Lemma quiet_calibration_report swaptions data :
  quiet obs 2 (calibration_report swaptions data).
Proof.
  unfold calibration_report.
  apply (@quiet_bind _ _ 0 2); [apply quiet_report_loop|]. intros acc.
  apply (@quiet_bind _ _ 0 2); [apply quiet_lift|]. intros r.
  apply (@quiet_bind _ _ 1 1); [apply quiet_print|]. intros _.
  apply (@quiet_bind _ _ 0 1); [apply quiet_lift|]. intros r2.
  apply (@quiet_bind _ _ 1 0); [apply quiet_print|]. intros _.
  apply quiet_ret.
Qed.
End Frame.

(** C8: the report changes nothing it is given.  With a library whose
    three helper methods leave alone the model's parameter vector, the
    yield curve and the state [instruments] of the helpers (any observation
    of the library state), a run of [calibration_report] -- returning or
    raising -- leaves all three as they were and adds at most the two
    printed scalars to the output.  The quote tuples and the helper list
    are arguments the report only reads. *)
Theorem calibration_report_read_only :
  forall QL (L : QuantLib QL) (M : Libm) X (instruments : QL -> X),
    preserves L params ->
    preserves L curve ->
    preserves L instruments ->
    forall swaptions data (nb : Notebook QL),
      params (ql (snd (calibration_report swaptions data nb))) = params (ql nb) /\
      curve (ql (snd (calibration_report swaptions data nb))) = curve (ql nb) /\
      instruments (ql (snd (calibration_report swaptions data nb)))
      = instruments (ql nb) /\
      exists out,
        stdout (snd (calibration_report swaptions data nb)) = stdout nb ++ out /\
        (len out <= 2)%nat.
Proof.
  intros QL L M X instruments Hp Hc Hi swaptions data nb.
  destruct (quiet_calibration_report Hp swaptions data nb) as [Hparams Hout].
  destruct (quiet_calibration_report Hc swaptions data nb) as [Hcurve _].
  destruct (quiet_calibration_report Hi swaptions data nb) as [Hinstr _].
  auto.
Qed.

(** The report of the Hull-White table on the linear library, whose
    methods return the state they are given: parameters, curve and the
    whole library state are those of [hw_market] afterwards. *)
Lemma calibration_report_read_only_witness :
  let L := linear_black hw_table in
  let nb' := snd (calibration_report (L := L) (M := rounded_squares)
                    hw_swaptions data
                    (mkNotebook hw_market [])) in
  (preserves L (@params _ L) /\ preserves L (@curve _ L) /\
   preserves L (fun q : Market => q)) /\
  mk_params (ql nb') = [0.04604; 0.00578] /\
  mk_curve (ql nb') = term_structure /\
  ql nb' = hw_market /\
  exists out, stdout nb' = [] ++ out /\ (len out <= 2)%nat.
Proof.
  intros L nb'.
  assert (Hp : preserves L (@params _ L)) by (repeat split).
  assert (Hc : preserves L (@curve _ L)) by (repeat split).
  assert (Hi : preserves L (fun q : Market => q)) by (repeat split).
  split; [auto|].
  exact (@calibration_report_read_only Market L rounded_squares Market
           (fun q => q) Hp Hc Hi
           hw_swaptions data (mkNotebook hw_market [])).
Defined.

(** The hypothesis on the library is needed: with a library whose
    [modelValue] overwrites the parameters, the report returns its table
    and the parameters read back afterwards have changed. *)
Example overwriting_library_changes_params :
  exists df,
    fst (calibration_report (L := overwriting two_table) (M := rounded_squares)
           two_swaptions
           two_quotes (mkNotebook hw_market [])) = Returned df /\
    mk_params hw_market = [0.04604; 0.00578] /\
    mk_params (ql (snd (calibration_report (L := overwriting two_table)
                          (M := rounded_squares)
                          two_swaptions two_quotes (mkNotebook hw_market []))))
    = [].
Proof.
  eexists. repeat split; vm_compute; reflexivity.
Qed.

(* ------------------------------------------------------------------ *)
(** * The inversion requested by the report *)

Section Inversion.
Context {QL : Type} {M : Libm}.

Lemma report_body_same (L L' : QuantLib QL) :
  same_on_report_calls L L' ->
  forall data acc i s nb,
    @report_body QL L M data acc i s nb = @report_body QL L' M data acc i s nb.
Proof.
  intros (Hm & Hb & Hi) data acc i s nb.
  unfold report_body, bind, call, lift.
  rewrite Hm. destruct (modelValue s (ql nb)) as [[mp|e] q1]; [|reflexivity].
  destruct (getitem data i) as [d|e]; [|reflexivity].
  cbn [ql stdout]. rewrite Hb.
  destruct (blackPrice s (volatility d) q1) as [[bp|e] q2]; [|reflexivity].
  destruct (py_truediv mp bp) as [x|e]; [|reflexivity].
  cbn [ql stdout]. rewrite Hi. reflexivity.
Qed.

Lemma report_loop_same (L L' : QuantLib QL) :
  same_on_report_calls L L' ->
  forall data swaptions i acc nb,
    for_enumerate (@report_body QL L M data) i swaptions acc nb
    = for_enumerate (@report_body QL L' M data) i swaptions acc nb.
Proof.
  intros Hsame data swaptions.
  induction swaptions as [|s swaptions IH]; intros i acc nb;
    cbn [for_enumerate]; [reflexivity|].
  unfold bind. rewrite (report_body_same Hsame).
  destruct (@report_body QL L' M data acc i s nb) as [[acc'|e] nb1];
    [apply IH|reflexivity].
Qed.

Context {L : QuantLib QL}.

(** The loop body raises what the inversion raises, once the statements
    before the inversion have gone through. *)
Lemma report_body_inversion_raised data acc i s (nb : Notebook QL)
      mp q1 d bp q2 e q3 :
  modelValue s (ql nb) = (Returned mp, q1) ->
  nth_error data i = Some d ->
  blackPrice s (volatility d) q1 = (Returned bp, q2) ->
  (bp =? 0) = false ->
  impliedVolatility s mp 1e-5 50 0.0 0.50 q2 = (Raised e, q3) ->
  report_body data acc i s nb = (Raised e, mkNotebook q3 (stdout nb)).
Proof.
  intros Hm Hd Hb Hz Hi.
  unfold report_body, bind, call, lift, getitem, py_truediv.
  rewrite Hm, Hd. cbn [ql stdout]. rewrite Hb, Hz. cbn [ql stdout].
  now rewrite Hi.
Qed.
End Inversion.

(** C10: the report requests every inversion with accuracy [1e-5], at most
    [50] evaluations and the interval [[0.0, 0.50]], whatever the helper,
    quote or model: a library that differs only on other inversion
    arguments yields the same run.  And the report does not handle a
    failed inversion: when the helpers before [s] have been processed and
    the inversion of the model price of [s] on that interval raises [e],
    the report raises [e] and returns no table. *)
Theorem report_inverts_on_fixed_interval :
  forall QL (L : QuantLib QL) (M : Libm) swaptions data (nb : Notebook QL),
    (forall L' : QuantLib QL,
        same_on_report_calls L L' ->
        @calibration_report QL L' M swaptions data nb
        = @calibration_report QL L M swaptions data nb) /\
    (forall pre s post acc nb1 mp q1 d bp q2 e q3,
        swaptions = pre ++ s :: post ->
        for_enumerate (report_body data) 0 pre (mkLocals [] 0.0 0.0) nb
        = (Returned acc, nb1) ->
        modelValue s (ql nb1) = (Returned mp, q1) ->
        nth_error data (len pre) = Some d ->
        blackPrice s (volatility d) q1 = (Returned bp, q2) ->
        (bp =? 0) = false ->
        impliedVolatility s mp 1e-5 50 0.0 0.50 q2 = (Raised e, q3) ->
        calibration_report swaptions data nb
        = (Raised e, mkNotebook q3 (stdout nb1))).
Proof.
  intros QL L M swaptions data nb. split.
  - intros L' Hsame. unfold calibration_report, bind at 1 6.
    now rewrite (report_loop_same Hsame).
  - intros pre s post acc nb1 mp q1 d bp q2 e q3 -> Hpre Hm Hd Hb Hz Hi.
    unfold calibration_report, bind at 1.
    rewrite for_enumerate_app. unfold bind at 1. rewrite Hpre.
    rewrite Nat.add_0_l. cbn [for_enumerate]. unfold bind at 1.
    now rewrite (report_body_inversion_raised data acc (len pre) s nb1 Hm Hd Hb Hz Hi).
Qed.

(** The second instrument of [steep_table] has implied volatility [1.0]:
    its inversion on [[0.0, 0.50]] raises and so does the report, with or
    without the guard on the inversion arguments. *)
Lemma report_inverts_on_fixed_interval_witness :
  same_on_report_calls (linear_black steep_table)
                       (guarded (linear_black steep_table)) /\
  @calibration_report Market (guarded (linear_black steep_table))
    rounded_squares
    two_swaptions two_quotes (mkNotebook hw_market [])
  = @calibration_report Market (linear_black steep_table) rounded_squares
      two_swaptions two_quotes (mkNotebook hw_market []) /\
  @calibration_report Market (linear_black steep_table) rounded_squares
    two_swaptions two_quotes (mkNotebook hw_market [])
  = (Raised (RuntimeError "root not bracketed"), mkNotebook hw_market []).
Proof.
  assert (Hsame : same_on_report_calls (linear_black steep_table)
                    (guarded (linear_black steep_table))).
  { repeat split. }
  destruct (@report_inverts_on_fixed_interval Market (linear_black steep_table)
              rounded_squares
              two_swaptions two_quotes (mkNotebook hw_market []))
    as [Hfixed Hraise].
  split; [exact Hsame|].
  split; [exact (Hfixed _ Hsame)|].
  apply eq_trans
    with (Raised (RuntimeError "root not bracketed"),
          mkNotebook hw_market (stdout (mkNotebook hw_market [])));
    [|reflexivity].
  eapply (Hraise
            [helper_for index term_structure hw_engine (mkCalibrationData 1 5 0.25)]
            (helper_for index term_structure hw_engine (mkCalibrationData 2 4 0.25))
            []);
    try reflexivity; vm_compute; reflexivity.
Defined.

(* ------------------------------------------------------------------ *)
(** * More on [create_swaption_helpers] *)

(** X1: building helpers distributes over concatenation of quote lists:
    the helpers of [d1 ++ d2] are those of [d1] followed by those of [d2];
    in particular no quotes give no helpers. *)
Theorem create_swaption_helpers_app :
  forall d1 d2 index ts engine,
    create_swaption_helpers [] index ts engine = Returned [] /\
    create_swaption_helpers (d1 ++ d2) index ts engine
    = obind (create_swaption_helpers d1 index ts engine) (fun l1 =>
      obind (create_swaption_helpers d2 index ts engine) (fun l2 =>
      Returned (l1 ++ l2))).
Proof.
  intros d1 d2 index ts engine. split; [reflexivity|].
  rewrite !create_swaption_helpers_run, forallb_app.
  destruct (forallb quote_fits d1); cbn [andb obind]; [|reflexivity].
  destruct (forallb quote_fits d2); cbn [obind]; [|reflexivity].
  now rewrite map_app.
Qed.

(** X2: the leg conventions are fixed by the function, not by its
    arguments: whenever it returns, every helper of the list has a fixed
    leg tenor of one year, the Actual/360 day counter on both legs, and
    maturity and length counted in years. *)
Theorem create_swaption_helpers_conventions :
  forall data index ts engine swaptions,
    create_swaption_helpers data index ts engine = Returned swaptions ->
    Forall (fun h =>
              h_fixedLegTenor h = mkPeriod 1 Years /\
              h_fixedLegDayCounter h = Actual360 /\
              h_floatingLegDayCounter h = Actual360 /\
              period_units (h_maturity h) = Years /\
              period_units (h_length h) = Years) swaptions.
Proof.
  intros data index ts engine swaptions Hrun.
  apply create_swaption_helpers_returned in Hrun as [_ ->].
  apply Forall_forall. intros h Hin.
  apply in_map_iff in Hin as (d & <- & _). cbn. auto.
Qed.

(** The helpers of the Hull-White cell follow the conventions. *)
Lemma create_swaption_helpers_conventions_witness :
  create_swaption_helpers data index term_structure hw_engine
  = Returned hw_swaptions /\
  Forall (fun h =>
            h_fixedLegTenor h = mkPeriod 1 Years /\
            h_fixedLegDayCounter h = Actual360 /\
            h_floatingLegDayCounter h = Actual360 /\
            period_units (h_maturity h) = Years /\
            period_units (h_length h) = Years) hw_swaptions.
Proof.
  split; [reflexivity|].
  apply (@create_swaption_helpers_conventions
           data index term_structure hw_engine hw_swaptions).
  reflexivity.
Defined.

(* ------------------------------------------------------------------ *)
(** * More on [calibration_report] *)

Section ReportRows.
Context {QL : Type} {L : QuantLib QL} {M : Libm}.

(** Everything a returning turn of the loop has done. *)
Lemma report_body_returned_calls data acc i s (nb : Notebook QL) acc' nb' :
  report_body data acc i s nb = (Returned acc', nb') ->
  exists d mp q1 bp q2 iv q3,
    modelValue s (ql nb) = (Returned mp, q1) /\
    nth_error data i = Some d /\
    blackPrice s (volatility d) q1 = (Returned bp, q2) /\
    (bp =? 0) = false /\
    impliedVolatility s mp 1e-5 50 0.0 0.50 q2 = (Returned iv, q3) /\
    (volatility d =? 0) = false /\
    nb' = mkNotebook q3 (stdout nb) /\
    report_data acc' =
      report_data acc ++
        [mkRow mp bp iv (volatility d) (mp / bp - 1.0) (iv / volatility d - 1.0)].
Proof.
  unfold report_body. intros H.
  run_bind H. apply call_returned in Hrun as (q1 & Hm & ->).
  run_bind H. apply lift_returned in Hrun as (Hd & ->).
  run_bind H. apply call_returned in Hrun as (q2 & Hb & ->).
  run_bind H. apply lift_returned in Hrun as (Hdiv & ->).
  run_bind H. apply call_returned in Hrun as (q3 & Hi & ->).
  run_bind H. apply lift_returned in Hrun as (Hdiv2 & ->).
  run_bind H. apply lift_returned in Hrun as (_ & ->).
  run_bind H. apply lift_returned in Hrun as (_ & ->).
  apply py_truediv_returned in Hdiv as [Hz ->].
  apply py_truediv_returned in Hdiv2 as [Hz2 ->].
  unfold getitem in Hd. destruct (nth_error data i) as [d|] eqn:Hnth; [|discriminate].
  injection Hd as <-.
  unfold ret in H. injection H as <- <-. cbn [ql stdout] in *.
  exists d, x, q1, x1, q2, x3, q3. repeat split; assumption.
Qed.

Lemma skipn_nth_error A (l : list A) : forall i d,
  nth_error l i = Some d -> skipn i l = d :: skipn (S i) l.
Proof.
  induction l as [|a l IH]; intros [|i] d H; cbn in *; try discriminate.
  - now injection H as ->.
  - now apply IH.
Qed.

(** The rows of a returning loop follow the quotes from position [i] on,
    and no row has a zero Black price or a zero market volatility. *)
Lemma report_loop_rows data swaptions :
  forall i acc (nb : Notebook QL) acc' nb',
    for_enumerate (report_body data) i swaptions acc nb = (Returned acc', nb') ->
    exists rows,
      report_data acc' = report_data acc ++ rows /\
      (len swaptions <= len (skipn i data))%nat /\
      map market_vol rows
      = map volatility (firstn (len swaptions) (skipn i data)) /\
      Forall (fun r => (black_price r =? 0) = false /\
                       (market_vol r =? 0) = false) rows.
Proof.
  induction swaptions as [|s swaptions IH]; intros i acc nb acc' nb' H;
    cbn [for_enumerate] in H.
  - injection H as <- <-. exists []. rewrite app_nil_r. cbn.
    repeat split; [lia|constructor].
  - run_bind H.
    apply report_body_returned_calls in Hrun
      as (d & mp & q1 & bp & q2 & iv & q3 & _ & Hd & _ & Hz & _ & Hz2 & _ & Hr).
    apply IH in H as (rows & Hrows & Hlen & Hvol & Hall).
    rewrite (skipn_nth_error _ _ Hd).
    eexists (_ :: rows). rewrite Hrows, Hr, <- app_assoc.
    split; [reflexivity|]. cbn [len firstn map market_vol].
    split; [lia|]. split; [now rewrite Hvol|].
    constructor; [split; assumption|assumption].
Qed.

(** Quotes past the last helper are never read. *)
Lemma report_loop_surplus data extra swaptions :
  forall i acc (nb : Notebook QL),
    (i + len swaptions <= len data)%nat ->
    for_enumerate (report_body (data ++ extra)) i swaptions acc nb
    = for_enumerate (report_body data) i swaptions acc nb.
Proof.
  induction swaptions as [|s swaptions IH]; intros i acc nb Hlen;
    cbn [for_enumerate len] in *; [reflexivity|].
  assert (Hbody : report_body (data ++ extra) acc i s nb
                  = report_body data acc i s nb).
  { unfold report_body, getitem. rewrite nth_error_app1 by lia. reflexivity. }
  unfold bind. rewrite Hbody.
  destruct (report_body data acc i s nb) as [[acc1|e] nb1]; [|reflexivity].
  apply IH. lia.
Qed.
End ReportRows.

Section Silent.
Context {QL : Type} {L : QuantLib QL} {M : Libm}.

(** The loop prints nothing, whether it returns or raises. *)
Lemma report_loop_silent data swaptions i acc (nb : Notebook QL) :
  stdout (snd (for_enumerate (report_body data) i swaptions acc nb)) = stdout nb.
Proof.
  assert (Hobs : preserves L (fun _ : QL => tt)) by (repeat split).
  destruct (quiet_report_loop Hobs data swaptions i acc nb)
    as (_ & out & Hout & Hlen).
  destruct out as [|l out]; [|cbn in Hlen; lia].
  now rewrite Hout, app_nil_r.
Qed.
End Silent.

(** The report stops at the first helper whose turn raises. *)
Lemma report_first_failure QL (L : QuantLib QL) (M : Libm) pre s post data
      (nb : Notebook QL) acc nb1 e nb2 :
  for_enumerate (report_body data) 0 pre (mkLocals [] 0.0 0.0) nb
  = (Returned acc, nb1) ->
  report_body data acc (len pre) s nb1 = (Raised e, nb2) ->
  calibration_report (pre ++ s :: post) data nb = (Raised e, nb2).
Proof.
  intros Hpre Hs.
  unfold calibration_report, bind at 1.
  rewrite for_enumerate_app. unfold bind at 1. rewrite Hpre.
  rewrite Nat.add_0_l. cbn [for_enumerate]. unfold bind at 1.
  now rewrite Hs.
Qed.

(** X4: with no helper the report calls nothing in the library, whatever
    the quotes: it prints [0.0] for both cumulative errors and returns the
    table with the six columns and no row. *)
Theorem calibration_report_empty :
  forall QL (L : QuantLib QL) (M : Libm) data (nb : Notebook QL),
    calibration_report [] data nb
    = (Returned (mkDataFrame [] columns []),
       mkNotebook (ql nb)
         (stdout nb ++
            [ Printed "Cumulative Error Price : %7.5f" 0;
              Printed "Cumulative Error Vols : %7.5f" 0 ])).
Proof.
  intros QL L M data nb. unfold calibration_report. cbn [for_enumerate].
  unfold bind, ret, lift, print. cbn. now rewrite <- app_assoc.
Qed.

(** X5: a report that returns has read one quote per helper, in order:
    there are at least as many quotes as helpers, the market volatility of
    the [i]-th row is the volatility of the [i]-th quote, and the table has
    the six columns and one empty index label per helper. *)
Theorem calibration_report_rows_follow_quotes :
  forall QL (L : QuantLib QL) (M : Libm) swaptions data (nb : Notebook QL)
         df nb',
    calibration_report swaptions data nb = (Returned df, nb') ->
    (len swaptions <= len data)%nat /\
    map market_vol (df_data df)
    = map volatility (firstn (len swaptions) data) /\
    df_columns df = columns /\
    df_index df = repeat EmptyString (len swaptions).
Proof.
  intros QL L M swaptions data nb df nb' H.
  unfold calibration_report in H.
  run_bind H.
  apply report_loop_rows in Hrun as (rows & Hrows & Hlen & Hvol & _).
  cbn in Hrows, Hlen, Hvol. subst rows.
  run_bind H. apply lift_returned in Hrun as (_ & ->).
  run_bind H. unfold print in Hrun. injection Hrun as _ <-.
  run_bind H. apply lift_returned in Hrun as (_ & ->).
  run_bind H. unfold print in Hrun. injection Hrun as _ <-.
  unfold ret in H. injection H as <- _. cbn [df_data df_columns df_index].
  repeat split; try assumption.
  f_equal.
  rewrite <- (length_map market_vol), Hvol, length_map, length_firstn. lia.
Qed.

(** The two-quote run returns two rows whose market volatilities are the
    two quoted ones. *)
Lemma calibration_report_rows_follow_quotes_witness :
  exists df,
    fst (calibration_report (L := linear_black two_table) (M := rounded_squares)
           two_swaptions
           two_quotes (mkNotebook hw_market [])) = Returned df /\
    (2 <= 2)%nat /\
    map market_vol (df_data df) = [0.25; 0.25] /\
    df_columns df = columns /\
    df_index df = [EmptyString; EmptyString].
Proof.
  eexists. split; [vm_compute; reflexivity|].
  eapply (@calibration_report_rows_follow_quotes Market (linear_black two_table)
            rounded_squares
            two_swaptions two_quotes (mkNotebook hw_market [])).
  vm_compute; reflexivity.
Defined.

(** X6: quotes past the last helper are never read: when there are at
    least as many quotes as helpers, appending further quotes changes
    neither the table, nor the printed lines, nor the library state. *)
Theorem calibration_report_ignores_surplus_quotes :
  forall QL (L : QuantLib QL) (M : Libm) swaptions data extra
         (nb : Notebook QL),
    (len swaptions <= len data)%nat ->
    calibration_report swaptions (data ++ extra) nb
    = calibration_report swaptions data nb.
Proof.
  intros QL L M swaptions data extra nb Hlen.
  unfold calibration_report, bind at 1 6.
  now rewrite report_loop_surplus by exact Hlen.
Qed.

Lemma calibration_report_ignores_surplus_quotes_witness :
  calibration_report (L := linear_black two_table) (M := rounded_squares)
    two_swaptions
    (two_quotes ++ [bad_quote]) (mkNotebook hw_market [])
  = calibration_report (L := linear_black two_table) (M := rounded_squares)
      two_swaptions
      two_quotes (mkNotebook hw_market []).
Proof.
  apply (@calibration_report_ignores_surplus_quotes Market
           (linear_black two_table) rounded_squares two_swaptions two_quotes
           [bad_quote]).
  vm_compute. lia.
Defined.

(** X7: a missing quote is found out only after the helper has been
    priced: when the helpers before [s] have been processed, [s] has no
    quote at its position and its model value is returned, the report
    raises [IndexError], returns no table, and prints nothing; the library
    is left as [modelValue] left it. *)
Theorem calibration_report_missing_quote :
  forall QL (L : QuantLib QL) (M : Libm) pre s post data (nb : Notebook QL)
         acc nb1 mp q1,
    for_enumerate (report_body data) 0 pre (mkLocals [] 0.0 0.0) nb
    = (Returned acc, nb1) ->
    nth_error data (len pre) = None ->
    modelValue s (ql nb1) = (Returned mp, q1) ->
    calibration_report (pre ++ s :: post) data nb
    = (Raised IndexError, mkNotebook q1 (stdout nb)).
Proof.
  intros QL L M pre s post data nb acc nb1 mp q1 Hpre Hd Hm.
  pose proof (report_loop_silent data pre 0 (mkLocals [] 0.0 0.0) nb) as Hout.
  rewrite Hpre in Hout. cbn [snd] in Hout. rewrite <- Hout.
  apply report_first_failure with (acc := acc) (nb1 := nb1); [exact Hpre|].
  unfold report_body, bind, call, lift, getitem.
  now rewrite Hm, Hd.
Qed.

(** Two helpers and the single quote [(1, 5, 0.25)]: the second helper is
    priced and then found to have no quote. *)
Lemma calibration_report_missing_quote_witness :
  calibration_report (L := linear_black two_table) (M := rounded_squares)
    two_swaptions
    [mkCalibrationData 1 5 0.25] (mkNotebook hw_market [])
  = (Raised IndexError, mkNotebook hw_market []).
Proof.
  apply eq_trans
    with (Raised IndexError,
          mkNotebook hw_market (stdout (mkNotebook hw_market [])));
    [|reflexivity].
  eapply (@calibration_report_missing_quote Market (linear_black two_table)
            rounded_squares
            [helper_for index term_structure hw_engine (mkCalibrationData 1 5 0.25)]
            (helper_for index term_structure hw_engine (mkCalibrationData 2 4 0.25))
            []);
    try reflexivity; vm_compute; reflexivity.
Defined.

(** X8: a Black price of zero stops the report before the inversion: when
    the helpers before [s] have been processed and the Black price of [s]
    at its quoted volatility is returned as [0.0] (or [-0.0]), the report
    raises [ZeroDivisionError] with nothing printed and the library as
    [blackPrice] left it; [impliedVolatility] is not called for [s]. *)
Theorem calibration_report_zero_black_price :
  forall QL (L : QuantLib QL) (M : Libm) pre s post data (nb : Notebook QL)
         acc nb1 mp q1 d bp q2,
    for_enumerate (report_body data) 0 pre (mkLocals [] 0.0 0.0) nb
    = (Returned acc, nb1) ->
    modelValue s (ql nb1) = (Returned mp, q1) ->
    nth_error data (len pre) = Some d ->
    blackPrice s (volatility d) q1 = (Returned bp, q2) ->
    (bp =? 0) = true ->
    calibration_report (pre ++ s :: post) data nb
    = (Raised ZeroDivisionError, mkNotebook q2 (stdout nb)).
Proof.
  intros QL L M pre s post data nb acc nb1 mp q1 d bp q2 Hpre Hm Hd Hb Hz.
  pose proof (report_loop_silent data pre 0 (mkLocals [] 0.0 0.0) nb) as Hout.
  rewrite Hpre in Hout. cbn [snd] in Hout. rewrite <- Hout.
  apply report_first_failure with (acc := acc) (nb1 := nb1); [exact Hpre|].
  unfold report_body, bind, call, lift, getitem, py_truediv.
  rewrite Hm, Hd. cbn [ql stdout]. now rewrite Hb, Hz.
Qed.

(** With [flat_table] the first helper has Black price [0.0]. *)
Lemma calibration_report_zero_black_price_witness :
  calibration_report (L := linear_black flat_table) (M := rounded_squares)
    two_swaptions two_quotes
    (mkNotebook hw_market [])
  = (Raised ZeroDivisionError, mkNotebook hw_market []).
Proof.
  apply eq_trans
    with (Raised ZeroDivisionError,
          mkNotebook hw_market (stdout (mkNotebook hw_market [])));
    [|reflexivity].
  eapply (@calibration_report_zero_black_price Market (linear_black flat_table)
            rounded_squares
            []
            (helper_for index term_structure hw_engine (mkCalibrationData 1 5 0.25))
            [helper_for index term_structure hw_engine (mkCalibrationData 2 4 0.25)]
            two_quotes (mkNotebook hw_market []));
    try reflexivity; vm_compute; reflexivity.
Defined.

(** X9: no row of a returned table has a zero Black price or a zero market
    volatility: both are divisors of the relative errors, and a zero
    divisor raises instead. *)
Theorem calibration_report_rows_nonzero_divisors :
  forall QL (L : QuantLib QL) (M : Libm) swaptions data (nb : Notebook QL)
         df nb',
    calibration_report swaptions data nb = (Returned df, nb') ->
    Forall (fun r => (black_price r =? 0) = false /\
                     (market_vol r =? 0) = false) (df_data df).
Proof.
  intros QL L M swaptions data nb df nb' H.
  unfold calibration_report in H.
  run_bind H.
  apply report_loop_rows in Hrun as (rows & Hrows & _ & _ & Hall).
  cbn in Hrows. subst rows.
  run_bind H. run_bind H. run_bind H. run_bind H.
  unfold ret in H. injection H as <- _. exact Hall.
Qed.

Lemma calibration_report_rows_nonzero_divisors_witness :
  exists df,
    fst (calibration_report (L := linear_black two_table) (M := rounded_squares)
           two_swaptions
           two_quotes (mkNotebook hw_market [])) = Returned df /\
    Forall (fun r => (black_price r =? 0) = false /\
                     (market_vol r =? 0) = false) (df_data df).
Proof.
  eexists. split; [vm_compute; reflexivity|].
  eapply (@calibration_report_rows_nonzero_divisors Market
            (linear_black two_table) rounded_squares two_swaptions two_quotes
            (mkNotebook hw_market [])).
  vm_compute; reflexivity.
Defined.

(* ------------------------------------------------------------------ *)
(** * Signs of the accumulated errors *)

Lemma Prim2SF_zero : Prim2SF 0 = S754_zero false.
Proof. reflexivity. Qed.

Lemma ltb_zero_spec x : (x <? 0) = negb (sf_not_negative (Prim2SF x)).
Proof.
  rewrite ltb_spec, Prim2SF_zero.
  destruct (Prim2SF x) as [s|s| |s m e]; try destruct s; reflexivity.
Qed.

Lemma is_nan_spec x : is_nan x = sf_is_nan (Prim2SF x).
Proof.
  unfold is_nan. rewrite eqb_spec. unfold SFeqb.
  destruct (Prim2SF x) as [s|s| |s m e]; try destruct s; cbn;
    try reflexivity;
    rewrite Z.compare_refl; change (Pos.compare_cont Eq m m) with (m ?= m)%positive;
    rewrite Pos.compare_refl; reflexivity.
Qed.

Lemma binary_round_aux_sign sx mx ex lx :
  match binary_round_aux prec emax sx mx ex lx with
  | S754_zero s | S754_infinity s | S754_finite s _ _ => s = sx
  | S754_nan => True
  end.
Proof.
  unfold binary_round_aux.
  destruct (shr_fexp prec emax mx ex lx) as [mrs' e'].
  destruct (shr_fexp prec emax _ e' loc_Exact) as [mrs'' e''].
  destruct (shr_m mrs''); [reflexivity| |exact I].
  destruct (Z.leb e'' _); reflexivity.
Qed.

Lemma binary_round_aux_not_negative mx ex lx :
  sf_not_negative (binary_round_aux prec emax false mx ex lx) = true.
Proof.
  pose proof (binary_round_aux_sign false mx ex lx) as H.
  destruct (binary_round_aux prec emax false mx ex lx); subst; reflexivity.
Qed.

Lemma SFmul_square_not_negative x :
  sf_not_negative (SFmul prec emax x x) = true.
Proof.
  destruct x as [s|s| |s m e]; cbn [SFmul]; try reflexivity.
  - now destruct s.
  - rewrite xorb_nilpotent. apply binary_round_aux_not_negative.
Qed.

Lemma SFadd_not_negative x y :
  sf_not_negative x = true -> sf_not_negative y = true ->
  sf_not_negative (SFadd prec emax x y) = true.
Proof.
  destruct x as [sx|sx| |sx mx ex], y as [sy|sy| |sy my ey];
    try destruct sx; try destruct sy; cbn [SFadd sf_not_negative];
    try reflexivity; try discriminate.
  intros _ _. cbn [cond_Zopp Z.add binary_normalize].
  unfold binary_round.
  destruct (shl_align _ _ _) as [mz ez].
  apply binary_round_aux_not_negative.
Qed.

(** The mantissa stays non-negative through the shifts of the rounding. *)
Lemma shr_1_nonneg mrs : (0 <= shr_m mrs)%Z -> (0 <= shr_m (shr_1 mrs))%Z.
Proof.
  destruct mrs as [m r s]. cbn [shr_m].
  destruct m as [|p|p]; [cbn; lia | | lia].
  intros _. destruct p; cbn; lia.
Qed.

Lemma iter_shr_1_nonneg p : forall mrs,
  (0 <= shr_m mrs)%Z -> (0 <= shr_m (iter_pos shr_1 p mrs))%Z.
Proof.
  induction p as [p IH|p IH|]; intros mrs H; cbn [iter_pos].
  - apply IH, IH, shr_1_nonneg, H.
  - apply IH, IH, H.
  - apply shr_1_nonneg, H.
Qed.

Lemma shr_fexp_nonneg m e l :
  (0 <= m)%Z -> (0 <= shr_m (fst (shr_fexp prec emax m e l)))%Z.
Proof.
  intros H. unfold shr_fexp, shr.
  assert (H0 : (0 <= shr_m (shr_record_of_loc m l))%Z).
  { destruct l as [|[]]; exact H. }
  destruct (_ - e)%Z; cbn [fst]; try exact H0.
  now apply iter_shr_1_nonneg.
Qed.

Lemma round_nearest_even_nonneg m l :
  (0 <= m)%Z -> (0 <= round_nearest_even m l)%Z.
Proof.
  intros H. destruct l as [|[]]; cbn [round_nearest_even]; try lia.
  destruct (Z.even m); lia.
Qed.

Lemma binary_round_aux_not_nan sx mx ex lx :
  (0 <= mx)%Z -> sf_is_nan (binary_round_aux prec emax sx mx ex lx) = false.
Proof.
  intros H. unfold binary_round_aux.
  pose proof (@shr_fexp_nonneg mx ex lx H) as H1.
  destruct (shr_fexp prec emax mx ex lx) as [mrs' e']. cbn [fst] in H1.
  pose proof (@shr_fexp_nonneg _ e' loc_Exact
                (@round_nearest_even_nonneg _ (loc_of_shr_record mrs') H1)) as H2.
  destruct (shr_fexp prec emax _ e' loc_Exact) as [mrs'' e'']. cbn [fst] in H2.
  destruct (shr_m mrs''); [reflexivity| |lia].
  destruct (Z.leb e'' _); reflexivity.
Qed.

Lemma SFsqrt_core_nonneg m e :
  (0 <= fst (fst (SFsqrt_core_binary prec emax (Zpos m) e)))%Z.
Proof.
  unfold SFsqrt_core_binary.
  match goal with |- context [Z.sqrtrem ?a] =>
    pose proof (Z.sqrtrem_sqrt a) as Hs; pose proof (Z.sqrt_nonneg a) as Hn;
    destruct (Z.sqrtrem a) as [q r] end.
  cbn [fst] in *. lia.
Qed.

Lemma SFsqrt_not_negative x :
  sf_not_negative x = true ->
  sf_is_nan x = false ->
  sf_is_nan (SFsqrt prec emax x) = false /\
  sf_not_negative (SFsqrt prec emax x) = true.
Proof.
  destruct x as [s|s| |s m e]; try destruct s; cbn [SFsqrt sf_not_negative sf_is_nan];
    try discriminate; try (split; reflexivity).
  intros _ _.
  pose proof (SFsqrt_core_nonneg m e) as H.
  destruct (SFsqrt_core_binary prec emax (Zpos m) e) as [[mz ez] lz]. cbn [fst] in H.
  split; [now apply binary_round_aux_not_nan | apply binary_round_aux_not_negative].
Qed.

Lemma square_not_negative x : (x * x <? 0) = false.
Proof.
  rewrite ltb_zero_spec, mul_spec. unfold SF64mul.
  now rewrite SFmul_square_not_negative.
Qed.

Lemma add_not_negative x y :
  (x <? 0) = false -> (y <? 0) = false -> (x + y <? 0) = false.
Proof.
  rewrite !ltb_zero_spec, add_spec. unfold SF64add.
  intros Hx Hy. apply negb_false_iff in Hx, Hy.
  now rewrite SFadd_not_negative.
Qed.

Lemma sqrt_not_negative x :
  (x <? 0) = false ->
  (is_nan (sqrt x) && negb (is_nan x)) = false /\ (sqrt x <? 0) = false.
Proof.
  rewrite !ltb_zero_spec, !is_nan_spec, sqrt_spec. unfold SF64sqrt.
  intros Hx. apply negb_false_iff in Hx.
  destruct (sf_is_nan (Prim2SF x)) eqn:Hn.
  - rewrite andb_false_r. split; [reflexivity|].
    destruct (Prim2SF x); try discriminate. reflexivity.
  - destruct (@SFsqrt_not_negative _ Hx Hn) as [-> ->]. split; reflexivity.
Qed.

Lemma math_sqrt_not_negative x :
  (x <? 0) = false -> math_sqrt x = Returned (PrimFloat.sqrt x).
Proof.
  intros Hx. unfold math_sqrt.
  now destruct (sqrt_not_negative Hx) as [-> _].
Qed.

Lemma abs_not_negative x : (abs x <? 0) = false.
Proof.
  rewrite ltb_zero_spec, abs_spec.
  destruct (Prim2SF x); reflexivity.
Qed.

Lemma nan_not_negative x : is_nan x = true -> (x <? 0) = false.
Proof.
  rewrite ltb_zero_spec, is_nan_spec.
  destruct (Prim2SF x); try discriminate. reflexivity.
Qed.

(** Correctly rounded squares are never below zero. *)
Lemma rounded_squares_not_negative : pow2_not_negative rounded_squares.
Proof. intros x. apply square_not_negative. Qed.

Section Signs.
Context {QL : Type} {L : QuantLib QL} {M : Libm}.
Hypothesis Hpow : pow2_not_negative M.

(** [x ** 2] is never below zero: the interpreter's own answers are a NaN,
    an absolute value, [0.0] and [1.0], and the others are the library's. *)
Lemma float_pow2_not_negative x : (float_pow2 x <? 0) = false.
Proof.
  unfold float_pow2.
  destruct (is_nan x) eqn:Hnan; [now apply nan_not_negative|].
  destruct (is_infinity x); [apply abs_not_negative|].
  destruct (x =? 0); [reflexivity|].
  destruct ((if x <? 0 then - x else x) =? 1); [reflexivity|].
  apply Hpow.
Qed.

(** Neither accumulator ever goes below zero. *)
Lemma report_loop_not_negative data swaptions :
  forall i acc (nb : Notebook QL) acc' nb',
    for_enumerate (report_body data) i swaptions acc nb = (Returned acc', nb') ->
    (cum_err acc <? 0) = false -> (cum_err2 acc <? 0) = false ->
    (cum_err acc' <? 0) = false /\ (cum_err2 acc' <? 0) = false.
Proof.
  induction swaptions as [|s swaptions IH]; intros i acc nb acc' nb' H H1 H2;
    cbn [for_enumerate] in H.
  - injection H as <- <-. now split.
  - run_bind H.
    apply report_body_returned in Hrun as (_ & r & _ & He & He2 & _).
    apply IH in H; [exact H| |].
    + rewrite He.
      apply add_not_negative; [exact H1|apply float_pow2_not_negative].
    + rewrite He2.
      apply add_not_negative; [exact H2|apply float_pow2_not_negative].
Qed.

End Signs.

(** X10: the report prints both cumulative errors or nothing.  On a C
    library whose squares are never below zero, the two square roots
    cannot fail, because the accumulated sums of squares are never below
    zero; so a report that raises has raised while processing the helpers,
    with that exception and the output untouched, and a report that returns
    has printed exactly the two lines. *)
Theorem calibration_report_all_or_nothing :
  forall QL (L : QuantLib QL) (M : Libm),
    pow2_not_negative M ->
    forall swaptions data (nb : Notebook QL),
    match calibration_report swaptions data nb with
    | (Returned df, nb') =>
        exists v1 v2,
          stdout nb' = stdout nb ++
            [ Printed "Cumulative Error Price : %7.5f" v1;
              Printed "Cumulative Error Vols : %7.5f" v2 ]
    | (Raised e, nb') =>
        stdout nb' = stdout nb /\
        for_enumerate (report_body data) 0 swaptions (mkLocals [] 0.0 0.0) nb
        = (Raised e, nb')
    end.
Proof.
  intros QL L M Hpow swaptions data nb.
  pose proof (report_loop_silent data swaptions 0 (mkLocals [] 0.0 0.0) nb) as Hout.
  unfold calibration_report, bind at 1.
  destruct (for_enumerate (report_body data) 0 swaptions (mkLocals [] 0.0 0.0) nb)
    as [[acc|e] nb1] eqn:Hloop; cbn [snd] in Hout.
  - destruct (report_loop_not_negative Hpow _ _ _ _ _ Hloop eq_refl eq_refl)
      as [H1 H2].
    unfold bind, lift, print, ret.
    rewrite (math_sqrt_not_negative H1), (math_sqrt_not_negative H2).
    cbn [stdout ql]. do 2 eexists. now rewrite Hout, <- app_assoc.
  - now split.
Qed.

(** The report of the Hull-White table prints its two lines. *)
Lemma calibration_report_all_or_nothing_witness :
  pow2_not_negative rounded_squares /\
  match calibration_report (L := linear_black hw_table) (M := rounded_squares)
          hw_swaptions data (mkNotebook hw_market []) with
  | (Returned df, nb') =>
      exists v1 v2,
        stdout nb' = [] ++
          [ Printed "Cumulative Error Price : %7.5f" v1;
            Printed "Cumulative Error Vols : %7.5f" v2 ]
  | (Raised e, nb') =>
      stdout nb' = [] /\
      for_enumerate (report_body (L := linear_black hw_table)
                       (M := rounded_squares) data)
        0 hw_swaptions (mkLocals [] 0.0 0.0) (mkNotebook hw_market [])
      = (Raised e, nb')
  end.
Proof.
  split; [exact rounded_squares_not_negative|].
  exact (@calibration_report_all_or_nothing Market (linear_black hw_table)
           rounded_squares rounded_squares_not_negative hw_swaptions data
           (mkNotebook hw_market [])).
Defined.

(** X11: on a C library whose squares are never below zero, the cumulative
    errors a returning report prints are never below zero (they may be
    infinite or NaN when an error is). *)
Theorem cumulative_errors_not_negative :
  forall QL (L : QuantLib QL) (M : Libm),
    pow2_not_negative M ->
    forall swaptions data (nb : Notebook QL) df nb',
    calibration_report swaptions data nb = (Returned df, nb') ->
    exists v1 v2,
      stdout nb' = stdout nb ++
        [ Printed "Cumulative Error Price : %7.5f" v1;
          Printed "Cumulative Error Vols : %7.5f" v2 ] /\
      (v1 <? 0) = false /\ (v2 <? 0) = false.
Proof.
  intros QL L M Hpow swaptions data nb df nb' H.
  pose proof (report_loop_silent data swaptions 0 (mkLocals [] 0.0 0.0) nb) as Hout.
  unfold calibration_report in H.
  run_bind H. rewrite Hrun in Hout. cbn [snd] in Hout.
  destruct (report_loop_not_negative Hpow _ _ _ _ _ Hrun eq_refl eq_refl)
    as [H1 H2].
  run_bind H. apply lift_returned in Hrun0 as (Hs & ->).
  run_bind H. unfold print in Hrun0. injection Hrun0 as _ <-.
  run_bind H. apply lift_returned in Hrun0 as (Hs2 & ->).
  run_bind H. unfold print in Hrun0. injection Hrun0 as _ <-.
  unfold ret in H. injection H as _ <-.
  apply math_sqrt_returned in Hs, Hs2. subst.
  cbn [stdout ql]. do 2 eexists.
  split; [now rewrite Hout, <- app_assoc|].
  split; [apply (sqrt_not_negative H1)|apply (sqrt_not_negative H2)].
Qed.

Lemma cumulative_errors_not_negative_witness :
  pow2_not_negative rounded_squares /\
  exists v1 v2,
    stdout (snd (calibration_report (L := linear_black two_table)
                   (M := rounded_squares)
                   two_swaptions two_quotes (mkNotebook hw_market [])))
    = [] ++
      [ Printed "Cumulative Error Price : %7.5f" v1;
        Printed "Cumulative Error Vols : %7.5f" v2 ] /\
    (v1 <? 0) = false /\ (v2 <? 0) = false.
Proof.
  split; [exact rounded_squares_not_negative|].
  eapply (@cumulative_errors_not_negative Market (linear_black two_table)
            rounded_squares rounded_squares_not_negative
            two_swaptions two_quotes (mkNotebook hw_market [])).
  vm_compute; reflexivity.
Defined.

(* ------------------------------------------------------------------ *)
(** * The calls the report makes *)

Section Trace.
Context {QL : Type} (L : QuantLib QL) {M : Libm}.

(** One turn of the loop against the recording library: the same outcome,
    the same library state and output, and on return the three calls of the
    new row added to the record. *)
Lemma logged_report_body data acc i s q log out :
  exists log',
    @report_body _ (logged L) M data acc i s (mkNotebook (q, log) out)
    = (fst (@report_body _ L M data acc i s (mkNotebook q out)),
       mkNotebook
         (ql (snd (@report_body _ L M data acc i s (mkNotebook q out))), log')
         (stdout (snd (@report_body _ L M data acc i s (mkNotebook q out))))) /\
    forall acc',
      fst (@report_body _ L M data acc i s (mkNotebook q out)) = Returned acc' ->
      exists row,
        report_data acc' = report_data acc ++ [row] /\
        log' = log ++ calls_for (s, row).
Proof.
  unfold report_body, bind, call, lift. cbn [logged modelValue blackPrice
    impliedVolatility ql stdout fst snd].
  destruct (@modelValue _ L s q) as [[mp|e] q1]; cbn [ql stdout fst snd];
    [|eexists; split; [reflexivity|discriminate]].
  destruct (getitem data i) as [d|e]; cbn [ql stdout fst snd];
    [|eexists; split; [reflexivity|discriminate]].
  destruct (@blackPrice _ L s (volatility d) q1) as [[bp|e] q2];
    cbn [ql stdout fst snd];
    [|eexists; split; [reflexivity|discriminate]].
  destruct (py_truediv mp bp) as [x|e]; cbn [ql stdout fst snd];
    [|eexists; split; [reflexivity|discriminate]].
  destruct (@impliedVolatility _ L s mp 1e-5 50 0.0 0.50 q2) as [[iv|e] q3];
    cbn [ql stdout fst snd];
    [|eexists; split; [reflexivity|discriminate]].
  destruct (py_truediv iv (volatility d)) as [x2|e]; cbn [ql stdout fst snd];
    [|eexists; split; [reflexivity|discriminate]].
  destruct (py_pow2 (x - 1.0)) as [e1|e]; cbn [ql stdout fst snd];
    [|eexists; split; [reflexivity|discriminate]].
  destruct (py_pow2 (x2 - 1.0)) as [e2|e]; cbn [ql stdout fst snd];
    [|eexists; split; [reflexivity|discriminate]].
  unfold ret. cbn [ql stdout fst snd].
  eexists. split; [reflexivity|].
  intros acc' [= <-]. cbn [report_data].
  eexists. split; [reflexivity|].
  cbn [calls_for market_vol model_price]. now rewrite <- !app_assoc.
Qed.

Lemma logged_report_loop data swaptions :
  forall i acc q log out,
  exists log',
    for_enumerate (@report_body _ (logged L) M data) i swaptions acc
      (mkNotebook (q, log) out)
    = (fst (for_enumerate (@report_body _ L M data) i swaptions acc
              (mkNotebook q out)),
       mkNotebook
         (ql (snd (for_enumerate (@report_body _ L M data) i swaptions acc
                     (mkNotebook q out))), log')
         (stdout (snd (for_enumerate (@report_body _ L M data) i swaptions acc
                         (mkNotebook q out))))) /\
    forall acc',
      fst (for_enumerate (@report_body _ L M data) i swaptions acc
             (mkNotebook q out)) = Returned acc' ->
      exists rows,
        report_data acc' = report_data acc ++ rows /\
        len rows = len swaptions /\
        log' = log ++ flat_map calls_for (combine swaptions rows).
Proof.
  induction swaptions as [|s swaptions IH]; intros i acc q log out;
    cbn [for_enumerate].
  - exists log. split; [reflexivity|].
    intros acc' [= <-]. exists []. now rewrite !app_nil_r.
  - destruct (logged_report_body data acc i s q log out) as (log1 & Hrun & Hlog1).
    unfold bind. rewrite Hrun.
    destruct (@report_body _ L M data acc i s (mkNotebook q out))
      as [[acc1|e] [q1 out1]]; cbn [fst snd ql stdout] in *.
    + destruct (Hlog1 acc1 eq_refl) as (row & Hrow & ->).
      destruct (IH (S i) acc1 q1 (log ++ calls_for (s, row)) out1)
        as (log2 & Hrun2 & Hlog2).
      exists log2. split; [exact Hrun2|].
      intros acc' Hret. destruct (Hlog2 acc' Hret) as (rows & Hrows & Hlen & ->).
      exists (row :: rows). rewrite Hrows, Hrow, <- app_assoc.
      split; [reflexivity|]. split; [cbn; now rewrite Hlen|].
      cbn [combine flat_map]. now rewrite <- app_assoc.
    + exists log1. split; [reflexivity|discriminate].
Qed.
Lemma logged_calibration_report swaptions data q log out :
  exists log',
    @calibration_report _ (logged L) M swaptions data (mkNotebook (q, log) out)
    = (fst (@calibration_report _ L M swaptions data (mkNotebook q out)),
       mkNotebook
         (ql (snd (@calibration_report _ L M swaptions data (mkNotebook q out))),
          log')
         (stdout (snd (@calibration_report _ L M swaptions data
                         (mkNotebook q out))))) /\
    forall df,
      fst (@calibration_report _ L M swaptions data (mkNotebook q out))
      = Returned df ->
      len (df_data df) = len swaptions /\
      log' = log ++ flat_map calls_for (combine swaptions (df_data df)).
Proof.
  destruct (logged_report_loop data swaptions 0 (mkLocals [] 0.0 0.0) q log out)
    as (log' & Hrun & Hlog).
  exists log'. unfold calibration_report, bind. rewrite Hrun.
  destruct (for_enumerate (@report_body _ L M data) 0 swaptions
              (mkLocals [] 0.0 0.0) (mkNotebook q out))
    as [[acc|e] [q1 out1]]; cbn [fst snd ql stdout] in *;
    [|split; [reflexivity|discriminate]].
  destruct (Hlog acc eq_refl) as (rows & Hrows & Hlen & ->).
  cbn [report_data app] in Hrows.
  unfold lift, print, ret.
  destruct (math_sqrt (cum_err acc)) as [r|e]; cbn [fst snd ql stdout];
    [|split; [reflexivity|discriminate]].
  destruct (math_sqrt (cum_err2 acc)) as [r2|e]; cbn [fst snd ql stdout];
    [|split; [reflexivity|discriminate]].
  split; [reflexivity|].
  intros df [= <-]. cbn [df_data]. now rewrite Hrows.
Qed.
End Trace.

(** X12: the report calls the library three times per helper and never
    more.  Run against a library that records its calls, the report has the
    same outcome, library state and output as against the library itself,
    and when it returns the calls recorded are, helper by helper and in
    this order: [modelValue], [blackPrice] at the market volatility of the
    helper's row, and [impliedVolatility] of the row's model price with
    accuracy [1e-5], [50] evaluations and the interval [[0.0, 0.50]]. *)
Theorem calibration_report_calls :
  forall QL (L : QuantLib QL) (M : Libm) swaptions data q log out,
    fst (@calibration_report _ (logged L) M swaptions data (mkNotebook (q, log) out))
    = fst (@calibration_report _ L M swaptions data (mkNotebook q out)) /\
    fst (ql (snd (@calibration_report _ (logged L) M swaptions data
                    (mkNotebook (q, log) out))))
    = ql (snd (@calibration_report _ L M swaptions data (mkNotebook q out))) /\
    stdout (snd (@calibration_report _ (logged L) M swaptions data
                   (mkNotebook (q, log) out)))
    = stdout (snd (@calibration_report _ L M swaptions data (mkNotebook q out))) /\
    forall df,
      fst (@calibration_report _ L M swaptions data (mkNotebook q out))
      = Returned df ->
      len (df_data df) = len swaptions /\
      snd (ql (snd (@calibration_report _ (logged L) M swaptions data
                      (mkNotebook (q, log) out))))
      = log ++ flat_map calls_for (combine swaptions (df_data df)).
Proof.
  intros QL L M swaptions data q log out.
  destruct (logged_calibration_report L swaptions data q log out)
    as (log' & -> & Hlog).
  cbn [fst snd ql stdout].
  split; [reflexivity|]. split; [reflexivity|]. split; [reflexivity|].
  exact Hlog.
Qed.

(* ------------------------------------------------------------------ *)
(** * The calibration cells and the report cells *)

Lemma unpack2_arity (v : list float) :
  unpack2 v =
  if (len v =? 2)%nat
  then Returned (nth 0 v 0, nth 1 v 0)
  else Raised ValueError.
Proof.
  destruct v as [|a [|b [|c v]]]; reflexivity.
Qed.

Lemma unpack5_arity (v : list float) :
  unpack5 v =
  if (len v =? 5)%nat
  then Returned (nth 0 v 0, nth 1 v 0, nth 2 v 0, nth 3 v 0, nth 4 v 0)
  else Raised ValueError.
Proof.
  destruct v as [|a [|b [|c [|d [|e [|f v]]]]]]; reflexivity.
Qed.

Lemma arity_two (v : list float) :
  (len v =? 2)%nat = true -> [nth 0 v 0; nth 1 v 0] = v.
Proof.
  destruct v as [|a [|b [|c v]]]; cbn; try discriminate. reflexivity.
Qed.

Lemma arity_five (v : list float) :
  (len v =? 5)%nat = true ->
  [nth 0 v 0; nth 1 v 0; nth 2 v 0; nth 3 v 0; nth 4 v 0] = v.
Proof.
  destruct v as [|a [|b [|c [|d [|e [|f v]]]]]]; cbn; try discriminate.
  reflexivity.
Qed.

(** What a calibration cell does, for each of the three cells. *)
Lemma calibration_cell_run QL (C : Calibration QL) k (st : Session QL) :
  calibration_cell k st =
  match calibrate (cell_model k) (cell_swaptions k)
          (mkLevenbergMarquardt 1.0e-8 1.0e-8 1.0e-8) (cell_end_criteria k)
          (s_lib st) with
  | (Raised e, q) => (Raised e, mkSession q (cell_swaptions k) (s_out st))
  | (Returned _, q) =>
      if (len (model_params (cell_model k) q) =? cell_arity k)%nat
      then (Returned tt,
            mkSession q (cell_swaptions k)
              (s_out st ++
                 [ParamsLine (cell_format k) (model_params (cell_model k) q)]))
      else (Raised ValueError, mkSession q (cell_swaptions k) (s_out st))
  end.
Proof.
  destruct k as [|[|k]];
    cbn [calibration_cell cell_model cell_engine cell_end_criteria cell_arity
           cell_format];
    unfold hull_white_cell, black_karasinski_cell, g2_cell, cell_swaptions;
    rewrite create_swaption_helpers_map by reflexivity; cbn [cell_engine];
    match goal with
    | |- context [calibrate ?m ?h ?o ?c ?q] =>
        destruct (calibrate m h o c q) as [[u|e] q1]
    end; try reflexivity.
  - rewrite unpack2_arity.
    destruct (len _ =? 2)%nat eqn:Hlen; [|reflexivity].
    now rewrite (arity_two _ Hlen).
  - rewrite unpack2_arity.
    destruct (len _ =? 2)%nat eqn:Hlen; [|reflexivity].
    now rewrite (arity_two _ Hlen).
  - rewrite unpack5_arity.
    destruct (len _ =? 5)%nat eqn:Hlen; [|reflexivity].
    now rewrite (arity_five _ Hlen).
Qed.

(** X13: each of the three calibration cells (Hull-White, Black-Karasinski,
    G2++) hands [calibrate] one helper per quote of [data], bound to the
    cell's engine, and then prints the parameters exactly when [calibrate]
    returns and [params()] has the number of entries the cell unpacks (2, 2
    and 5).  With another number the cell raises [ValueError]; whenever it
    raises it prints nothing, and in every case [swaptions] holds the
    helpers and the library is as [calibrate] left it. *)
Theorem calibration_cell_outcome :
  forall QL (C : Calibration QL) k (st : Session QL),
    let run :=
      calibrate (cell_model k) (cell_swaptions k)
        (mkLevenbergMarquardt 1.0e-8 1.0e-8 1.0e-8) (cell_end_criteria k)
        (s_lib st) in
    let v := model_params (cell_model k) (snd run) in
    s_lib (snd (calibration_cell k st)) = snd run /\
    s_swaptions (snd (calibration_cell k st)) = cell_swaptions k /\
    len (cell_swaptions k) = len data /\
    Forall (fun h => h_engine h = Some (cell_engine k)) (cell_swaptions k) /\
    match fst run with
    | Raised e =>
        fst (calibration_cell k st) = Raised e /\
        s_out (snd (calibration_cell k st)) = s_out st
    | Returned _ =>
        if (len v =? cell_arity k)%nat
        then fst (calibration_cell k st) = Returned tt /\
             s_out (snd (calibration_cell k st))
             = s_out st ++ [ParamsLine (cell_format k) v]
        else fst (calibration_cell k st) = Raised ValueError /\
             s_out (snd (calibration_cell k st)) = s_out st
    end.
Proof.
  intros QL C k st run v. subst v run.
  rewrite calibration_cell_run.
  destruct (calibrate _ _ _ _ _) as [[u|e] q]; cbn [fst snd].
  - split; [now destruct (len _ =? _)%nat|].
    split; [now destruct (len _ =? _)%nat|].
    split; [apply length_map|].
    split.
    + apply Forall_forall. intros h Hin.
      apply in_map_iff in Hin as (d & <- & _). reflexivity.
    + destruct (len _ =? _)%nat; split; reflexivity.
  - repeat split; try apply length_map.
    apply Forall_forall. intros h Hin.
    apply in_map_iff in Hin as (d & <- & _). reflexivity.
Qed.

(** The shape of a returning report: quotes read in order, two lines
    printed. *)
Lemma calibration_report_returned_shape QL (L : QuantLib QL) (M : Libm)
      swaptions data (nb : Notebook QL) df nb' :
  calibration_report swaptions data nb = (Returned df, nb') ->
  (len swaptions <= len data)%nat /\
  map market_vol (df_data df) = map volatility (firstn (len swaptions) data) /\
  exists v1 v2,
    stdout nb' = stdout nb ++
      [ Printed "Cumulative Error Price : %7.5f" v1;
        Printed "Cumulative Error Vols : %7.5f" v2 ].
Proof.
  intros H.
  pose proof (report_loop_silent data swaptions 0 (mkLocals [] 0.0 0.0) nb) as Hout.
  unfold calibration_report in H.
  run_bind H. rewrite Hrun in Hout. cbn [snd] in Hout.
  apply report_loop_rows in Hrun as (rows & Hrows & Hlen & Hvol & _).
  cbn in Hrows, Hlen, Hvol. subst rows.
  run_bind H. apply lift_returned in Hrun as (_ & ->).
  run_bind H. unfold print in Hrun. injection Hrun as _ <-.
  run_bind H. apply lift_returned in Hrun as (_ & ->).
  run_bind H. unfold print in Hrun. injection Hrun as _ <-.
  unfold ret in H. injection H as <- <-. cbn [df_data stdout ql].
  repeat split; try assumption.
  do 2 eexists. now rewrite Hout, <- app_assoc.
Qed.

(** X14: a calibration cell followed by the report cell.  When both
    return, the report has been run on the helpers the calibration cell
    built -- all bound to that cell's engine -- so the table has one row per
    quote of [data] with that quote's volatility as market volatility, and
    the two cells have printed three lines: the parameters, then the two
    cumulative errors. *)
Theorem calibration_then_report :
  forall QL (L : QuantLib QL) (M : Libm) (C : Calibration QL) k
         (st st1 st2 : Session QL) df,
    calibration_cell k st = (Returned tt, st1) ->
    report_cell st1 = (Returned df, st2) ->
    s_swaptions st2 = cell_swaptions k /\
    Forall (fun h => h_engine h = Some (cell_engine k)) (s_swaptions st2) /\
    len (df_data df) = len data /\
    map market_vol (df_data df) = map volatility data /\
    exists v v1 v2,
      len v = cell_arity k /\
      s_out st2 = s_out st ++
        [ ParamsLine (cell_format k) v;
          ReportLine (Printed "Cumulative Error Price : %7.5f" v1);
          ReportLine (Printed "Cumulative Error Vols : %7.5f" v2) ].
Proof.
  intros QL L M C k st st1 st2 df Hcell Hreport.
  rewrite calibration_cell_run in Hcell.
  destruct (calibrate _ _ _ _ _) as [[u|e] q]; [|discriminate].
  destruct (len _ =? _)%nat eqn:Harity; [|discriminate].
  injection Hcell as <-.
  unfold report_cell in Hreport. cbn [s_swaptions s_lib s_out] in Hreport.
  destruct (calibration_report _ _ _) as [r nb] eqn:Hrun.
  injection Hreport as -> <-. cbn [s_swaptions s_out].
  apply calibration_report_returned_shape in Hrun as (Hlen & Hvol & v1 & v2 & Hout).
  unfold cell_swaptions in Hvol at 1. rewrite length_map, firstn_all in Hvol.
  split; [reflexivity|].
  split.
  { apply Forall_forall. intros h Hin.
    apply in_map_iff in Hin as (d & <- & _). reflexivity. }
  split; [now rewrite <- (length_map market_vol), Hvol, length_map|].
  split; [exact Hvol|].
  exists (model_params (cell_model k) q), v1, v2.
  split; [now apply Nat.eqb_eq|].
  rewrite Hout. cbn [stdout app map]. now rewrite <- app_assoc.
Qed.

(** The Hull-White cell with a calibration that stores the printed
    parameters, then the report cell on the table printed in the
    notebook. *)
Lemma calibration_then_report_witness :
  exists st1 st2 df v v1 v2,
    @calibration_cell Market (storing [0.04604; 0.00578]) 0
      (mkSession hw_market [] []) = (Returned tt, st1) /\
    @report_cell Market (linear_black hw_table) rounded_squares st1
    = (Returned df, st2) /\
    s_swaptions st2 = hw_swaptions /\
    len (df_data df) = 5%nat /\
    map market_vol (df_data df) = [0.1148; 0.1108; 0.1070; 0.1021; 0.1000] /\
    len v = 2%nat /\
    s_out st2 =
      [ ParamsLine "a = %6.5f, sigma = %6.5f" v;
        ReportLine (Printed "Cumulative Error Price : %7.5f" v1);
        ReportLine (Printed "Cumulative Error Vols : %7.5f" v2) ].
Proof.
  assert (Hcell : @calibration_cell Market (storing [0.04604; 0.00578]) 0
                    (mkSession hw_market [] [])
                  = (Returned tt,
                     mkSession (mkMarket [0.04604; 0.00578] term_structure)
                       hw_swaptions
                       [ParamsLine "a = %6.5f, sigma = %6.5f" [0.04604; 0.00578]]))
    by (vm_compute; reflexivity).
  pose proof (fun st2 df =>
                @calibration_then_report Market (linear_black hw_table)
                  rounded_squares (storing [0.04604; 0.00578]) 0
                  (mkSession hw_market [] [])
                  _ st2 df Hcell) as Hthen.
  destruct (@report_cell Market (linear_black hw_table) rounded_squares
              (mkSession (mkMarket [0.04604; 0.00578] term_structure)
                 hw_swaptions
                 [ParamsLine "a = %6.5f, sigma = %6.5f" [0.04604; 0.00578]]))
    as [[df|e] st2] eqn:Hreport; [|vm_compute in Hreport; discriminate].
  destruct (Hthen st2 df eq_refl) as (Hsw & _ & Hlen & Hvol & v & v1 & v2 & Hv & Hout).
  eexists; exists st2, df, v, v1, v2.
  split; [exact Hcell|]. split; [exact Hreport|].
  repeat split; assumption.
Defined.

(* ------------------------------------------------------------------ *)
(** * The simulation cell *)

Lemma getitem_middle A (done : list A) x rest :
  getitem (done ++ x :: rest) (len done) = Returned x.
Proof.
  unfold getitem. rewrite nth_error_app2, Nat.sub_diag by lia. reflexivity.
Qed.

Lemma setitem_middle A (done : list A) x y rest :
  setitem (done ++ x :: rest) (len done) y = Returned (done ++ y :: rest).
Proof.
  unfold setitem.
  assert (Hlt : (len done <? len (done ++ x :: rest))%nat = true).
  { apply Nat.ltb_lt. rewrite length_app. cbn. lia. }
  rewrite Hlt.
  rewrite firstn_app, firstn_all, Nat.sub_diag. cbn [firstn].
  rewrite app_nil_r.
  rewrite skipn_app, skipn_all2 by lia.
  replace (S (len done) - len done)%nat with 1%nat by lia.
  reflexivity.
Qed.

Lemma assign_row_middle (done : list (list float)) z rest vec :
  len vec = len z ->
  assign_row (done ++ z :: rest) (len done) vec
  = Returned (done ++ vec :: rest).
Proof.
  intros Hlen. unfold assign_row. rewrite getitem_middle. cbn [obind].
  rewrite Hlen, Nat.eqb_refl. apply setitem_middle.
Qed.

Lemma map_const_repeat A B (v : B) (x : A) n :
  map (fun _ => v) (repeat x n) = repeat v n.
Proof.
  induction n as [|n IH]; cbn; [reflexivity|now rewrite IH].
Qed.

Lemma fill_row_first m k v :
  fill_row (zeros (S k) m) 0 v = Returned (repeat v m :: zeros k m).
Proof.
  unfold fill_row, zeros. cbn [repeat getitem nth_error obind].
  now rewrite map_const_repeat.
Qed.

Section SimulationFacts.
Variables (np_log np_exp : float -> float) (draws : nat -> nat -> float * float).

Lemma first_factor_length m t : len (first_factor draws m t) = m.
Proof.
  unfold first_factor. now rewrite !length_map, length_seq.
Qed.

Lemma elementwise_first_factor f prev m t :
  len prev = m ->
  elementwise f prev (first_factor draws m t)
  = Returned (map (fun p => f (fst p) (snd p))
                (combine prev (first_factor draws m t))).
Proof.
  intros Hlen. unfold elementwise.
  now rewrite first_factor_length, Hlen, Nat.eqb_refl.
Qed.

Lemma step_row_length (f : float -> float -> float) prev m t :
  len prev = m ->
  len (map (fun p => f (fst p) (snd p))
         (combine prev (first_factor draws m t))) = m.
Proof.
  intros Hlen. rewrite length_map, length_combine, first_factor_length. lia.
Qed.

(** One turn of the loop on arrays filled up to row [t - 1]. *)
Lemma simulation_body_step m k t dh ph db pb dg pg :
  t = S (len dh) -> len db = len dh -> len dg = len dh ->
  len ph = m -> len pb = m -> len pg = m ->
  simulation_body np_log draws m
    (mkRates (dh ++ ph :: zeros (S k) m) (db ++ pb :: zeros (S k) m)
       (dg ++ pg :: zeros (S k) m)) t
  = Returned
      (mkRates
         ((dh ++ [ph]) ++
            map (fun p => one_factor_step a_hw r0 sigma_hw (fst p) (snd p))
              (combine ph (first_factor draws m t)) :: zeros k m)
         ((db ++ [pb]) ++
            map (fun p => one_factor_step a_bk (np_log r0) sigma_bk (fst p) (snd p))
              (combine pb (first_factor draws m t)) :: zeros k m)
         ((dg ++ [pg]) ++
            map (fun p => one_factor_step a_g2 r0 sigma_g2 (fst p) (snd p))
              (combine pg (first_factor draws m t)) :: zeros k m)).
Proof.
  intros -> Hb Hg Hph Hpb Hpg.
  unfold simulation_body. cbn [hw_of bk_of g2_of].
  replace (S (len dh) - 1)%nat with (len dh) by lia.
  change (map fst (map (draws (S (len dh))) (seq 0 m)))
    with (first_factor draws m (S (len dh))).
  change (zeros (S k) m) with (repeat 0 m :: zeros k m).
  rewrite getitem_middle. cbn [obind].
  rewrite elementwise_first_factor by exact Hph. cbn [obind].
  replace (dh ++ ph :: repeat 0 m :: zeros k m)
    with ((dh ++ [ph]) ++ repeat 0 m :: zeros k m)
    by now rewrite <- app_assoc.
  replace (S (len dh)) with (len (dh ++ [ph])) at 1
    by (rewrite length_app; cbn; lia).
  rewrite assign_row_middle
    by (rewrite length_map, length_combine, first_factor_length, repeat_length;
        lia).
  cbn [obind].
  rewrite <- Hb at 1. rewrite getitem_middle. cbn [obind].
  rewrite elementwise_first_factor by exact Hpb. cbn [obind].
  replace (db ++ pb :: repeat 0 m :: zeros k m)
    with ((db ++ [pb]) ++ repeat 0 m :: zeros k m)
    by now rewrite <- app_assoc.
  replace (S (len dh)) with (len (db ++ [pb])) at 1
    by (rewrite length_app; cbn; lia).
  rewrite assign_row_middle
    by (rewrite length_map, length_combine, first_factor_length, repeat_length;
        lia).
  cbn [obind].
  rewrite <- Hg at 1. rewrite getitem_middle. cbn [obind].
  rewrite elementwise_first_factor by exact Hpg. cbn [obind].
  replace (dg ++ pg :: repeat 0 m :: zeros k m)
    with ((dg ++ [pg]) ++ repeat 0 m :: zeros k m)
    by now rewrite <- app_assoc.
  replace (S (len dh)) with (len (dg ++ [pg])) at 1
    by (rewrite length_app; cbn; lia).
  rewrite assign_row_middle
    by (rewrite length_map, length_combine, first_factor_length, repeat_length;
        lia).
  reflexivity.
Qed.
End SimulationFacts.

Section SimulationClosedForm.
Variables (np_log np_exp : float -> float) (draws : nat -> nat -> float * float).

(** The loop fills the arrays row by row with the three one-factor
    recursions. *)
Lemma simulation_loop m k :
  forall t dh ph db pb dg pg,
    t = S (len dh) -> len db = len dh -> len dg = len dh ->
    len ph = m -> len pb = m -> len pg = m ->
    ofor (simulation_body np_log draws m) (seq t k)
      (mkRates (dh ++ ph :: zeros k m) (db ++ pb :: zeros k m)
         (dg ++ pg :: zeros k m))
    = Returned
        (mkRates
           (dh ++ ph ::
              path_rows draws (one_factor_step a_hw r0 sigma_hw) m t k ph)
           (db ++ pb ::
              path_rows draws (one_factor_step a_bk (np_log r0) sigma_bk) m t k pb)
           (dg ++ pg ::
              path_rows draws (one_factor_step a_g2 r0 sigma_g2) m t k pg)).
Proof.
  induction k as [|k IH]; intros t dh ph db pb dg pg Ht Hb Hg Hph Hpb Hpg.
  - reflexivity.
  - cbn [seq ofor path_rows].
    rewrite (@simulation_body_step np_log draws m k t dh ph db pb dg pg
               Ht Hb Hg Hph Hpb Hpg).
    cbn [obind].
    rewrite IH.
    + now rewrite <- !app_assoc.
    + rewrite length_app. cbn. lia.
    + rewrite !length_app. cbn. lia.
    + rewrite !length_app. cbn. lia.
    + rewrite length_map, length_combine, first_factor_length. lia.
    + rewrite length_map, length_combine, first_factor_length. lia.
    + rewrite length_map, length_combine, first_factor_length. lia.
Qed.

Lemma simulate_rates_closed k m :
  simulate_rates np_log np_exp draws (S k) m
  = Returned
      (mkRates
         (repeat r0 m ::
            path_rows draws (one_factor_step a_hw r0 sigma_hw) m 1 k
              (repeat r0 m))
         (map (map np_exp)
            (repeat (np_log r0) m ::
               path_rows draws (one_factor_step a_bk (np_log r0) sigma_bk) m 1 k
                 (repeat (np_log r0) m)))
         (repeat r0 m ::
            path_rows draws (one_factor_step a_g2 r0 sigma_g2) m 1 k
              (repeat r0 m))).
Proof.
  unfold simulate_rates. rewrite !fill_row_first. cbn [obind].
  replace (S k - 1)%nat with k by lia.
  pose proof (@simulation_loop m k 1 [] (repeat r0 m) []
                (repeat (np_log r0) m) [] (repeat r0 m)
                eq_refl eq_refl eq_refl (repeat_length r0 m)
                (repeat_length (np_log r0) m) (repeat_length r0 m)) as Hloop.
  cbn [app] in Hloop. now rewrite Hloop.
Qed.

Lemma n_steps_value : n_steps = Returned 1260%Z.
Proof. vm_compute. reflexivity. Qed.

Lemma simulation_closed :
  simulation np_log np_exp draws
  = simulate_rates np_log np_exp draws (S 1259) n_paths.
Proof.
  unfold simulation. rewrite n_steps_value. reflexivity.
Qed.

Lemma path_rows_shape step m k :
  forall t prev,
    len prev = m ->
    len (path_rows draws step m t k prev) = k /\
    Forall (fun row => len row = m) (path_rows draws step m t k prev).
Proof.
  induction k as [|k IH]; intros t prev Hlen; cbn [path_rows len].
  - split; [reflexivity|constructor].
  - assert (Hrow : len (map (fun p => step (fst p) (snd p))
                          (combine prev (first_factor draws m t))) = m).
    { rewrite length_map, length_combine, first_factor_length. lia. }
    destruct (IH (S t) _ Hrow) as [Hk Hall].
    split; [now rewrite Hk|now constructor].
Qed.

(** With a vanishing first factor and a row at a rest point of the update,
    every further row is that row. *)
Lemma path_rows_rest step m x :
  step x 0 = x ->
  (forall t j, fst (draws t j) = 0) ->
  forall k t,
    path_rows draws step m t k (repeat x m) = repeat (repeat x m) k.
Proof.
  intros Hstep Hzero.
  assert (Hff : forall t, first_factor draws m t = repeat 0 m).
  { intros t. unfold first_factor. rewrite map_map.
    rewrite (map_ext _ (fun _ => 0)) by (intros j; apply Hzero).
    generalize 0%nat. induction m as [|m' IH]; intros i; cbn; [reflexivity|].
    now rewrite IH. }
  assert (Hrow : forall t,
             map (fun p => step (fst p) (snd p))
               (combine (repeat x m) (first_factor draws m t)) = repeat x m).
  { intros t. rewrite Hff. clear Hff.
    induction m as [|m' IH]; cbn; [reflexivity|]. now rewrite Hstep, IH. }
  induction k as [|k IH]; intros t; cbn [path_rows repeat]; [reflexivity|].
  now rewrite Hrow, IH.
Qed.
End SimulationClosedForm.

(** The recursions only read the first column of the draws. *)
Lemma path_rows_first_factor draws draws' step m :
  (forall t j, fst (draws t j) = fst (draws' t j)) ->
  forall k t prev,
    path_rows draws step m t k prev = path_rows draws' step m t k prev.
Proof.
  intros Hsame.
  assert (Hff : forall t, first_factor draws m t = first_factor draws' m t).
  { intros t. unfold first_factor. rewrite !map_map.
    apply map_ext. intros j. apply Hsame. }
  induction k as [|k IH]; intros t prev; cbn [path_rows]; [reflexivity|].
  now rewrite Hff, IH.
Qed.

(** Rest points of the updates. *)
Lemma Prim2SF_injective x y : Prim2SF x = Prim2SF y -> x = y.
Proof.
  intros H. rewrite <- (SF2Prim_Prim2SF x), <- (SF2Prim_Prim2SF y).
  now rewrite H.
Qed.

Lemma finite_nonzero_spec x :
  is_finite x = true -> is_zero x = false ->
  exists s m e, Prim2SF x = S754_finite s m e.
Proof.
  unfold is_finite, is_zero, is_infinity. rewrite is_nan_spec, !eqb_spec, abs_spec.
  change (Prim2SF infinity) with (S754_infinity false).
  change (Prim2SF zero) with (S754_zero false).
  destruct (Prim2SF x) as [s|s| |s m e]; cbn; try discriminate.
  - intros _ _. now exists s, m, e.
Qed.

Lemma sub_diag_finite x :
  is_finite x = true -> is_zero x = false -> x - x = 0.
Proof.
  intros Hf Hz. destruct (finite_nonzero_spec Hf Hz) as (s & m & e & Hx).
  apply Prim2SF_injective. rewrite sub_spec, Hx. unfold SF64sub.
  cbn [SFsub]. rewrite Z.sub_diag. reflexivity.
Qed.

Lemma add_zero_finite x :
  is_finite x = true -> is_zero x = false -> x + 0 = x.
Proof.
  intros Hf Hz. destruct (finite_nonzero_spec Hf Hz) as (s & m & e & Hx).
  apply Prim2SF_injective. rewrite add_spec, Hx. reflexivity.
Qed.

Lemma bk_rest_point x :
  is_finite x = true -> is_zero x = false ->
  one_factor_step a_bk x sigma_bk x 0 = x.
Proof.
  intros Hf Hz. unfold one_factor_step.
  rewrite (sub_diag_finite Hf Hz).
  change (a_bk * 0 * dt) with 0. change (sigma_bk * 0) with 0.
  now rewrite !(add_zero_finite Hf Hz).
Qed.

(** X15: the simulation cell never fails, for any draws: [int(T/dt)] is
    [1260], and the cell ends with three arrays of 1260 rows of 100 rates
    each, whose first rows are [r0], [exp(log(r0))] and [r0] on every path.
    (With no step at all the first assignment [rates_hw[0,:] = r0] would
    raise [IndexError].) *)
Theorem simulation_shape :
  forall np_log np_exp draws,
    n_steps = Returned 1260%Z /\
    (forall m, simulate_rates np_log np_exp draws 0 m = Raised IndexError) /\
    exists R,
      simulation np_log np_exp draws = Returned R /\
      (len (hw_of R) = 1260%nat /\ len (bk_of R) = 1260%nat /\
       len (g2_of R) = 1260%nat) /\
      (Forall (fun row => len row = 100%nat) (hw_of R) /\
       Forall (fun row => len row = 100%nat) (bk_of R) /\
       Forall (fun row => len row = 100%nat) (g2_of R)) /\
      nth_error (hw_of R) 0 = Some (repeat r0 100) /\
      nth_error (bk_of R) 0 = Some (repeat (np_exp (np_log r0)) 100) /\
      nth_error (g2_of R) 0 = Some (repeat r0 100).
Proof.
  intros np_log np_exp draws.
  split; [apply n_steps_value|]. split; [reflexivity|].
  eexists. split; [rewrite simulation_closed; apply simulate_rates_closed|].
  cbn [hw_of bk_of g2_of].
  destruct (@path_rows_shape draws (one_factor_step a_hw r0 sigma_hw)
              n_paths 1259 1 _ (repeat_length r0 n_paths)) as [Hh Hhr].
  destruct (@path_rows_shape draws (one_factor_step a_bk (np_log r0) sigma_bk)
              n_paths 1259 1 _ (repeat_length (np_log r0) n_paths)) as [Hb Hbr].
  destruct (@path_rows_shape draws (one_factor_step a_g2 r0 sigma_g2)
              n_paths 1259 1 _ (repeat_length r0 n_paths)) as [Hg Hgr].
  split.
  { rewrite length_map. cbn [Datatypes.length]. rewrite Hh, Hb, Hg.
    repeat split. }
  split.
  { split; [|split].
    - constructor; [apply repeat_length|exact Hhr].
    - apply Forall_map. constructor.
      + rewrite length_map. apply repeat_length.
      + eapply Forall_impl; [|exact Hbr]. intros row Hrow.
        now rewrite length_map.
    - constructor; [apply repeat_length|exact Hgr]. }
  cbn [map nth_error]. rewrite map_repeat. repeat split.
Qed.

(** X16: the rates rest at their starting level when the first factor of
    every draw is zero: every simulated Hull-White and G2++ rate is then
    exactly [r0], and every Black-Karasinski rate is [exp(log(r0))],
    provided [log(r0)] is a finite non-zero float.  The level each update
    reverts to is the starting value itself. *)
Theorem simulation_rest :
  forall np_log np_exp draws,
    (forall t j, fst (draws t j) = 0) ->
    is_finite (np_log r0) = true ->
    is_zero (np_log r0) = false ->
    simulation np_log np_exp draws
    = Returned
        (mkRates (repeat (repeat r0 100) 1260)
           (repeat (repeat (np_exp (np_log r0)) 100) 1260)
           (repeat (repeat r0 100) 1260)).
Proof.
  intros np_log np_exp draws Hzero Hfin Hnz.
  rewrite simulation_closed, simulate_rates_closed.
  rewrite !path_rows_rest; try exact Hzero.
  - change (repeat r0 n_paths :: repeat (repeat r0 n_paths) 1259)
      with (repeat (repeat r0 100) 1260).
    change (repeat (np_log r0) n_paths ::
              repeat (repeat (np_log r0) n_paths) 1259)
      with (repeat (repeat (np_log r0) 100) 1260).
    now rewrite !map_repeat.
  - vm_compute. reflexivity.
  - now apply bk_rest_point.
  - vm_compute. reflexivity.
Qed.

(** Draws whose first factor is zero, and constant stand-ins for the two
    NumPy functions. *)
Lemma simulation_rest_witness :
  simulation (fun _ => -4.605170185988091) (fun _ => 0.01)
    (fun _ _ => (0, 0.5))
  = Returned
      (mkRates (repeat (repeat r0 100) 1260)
         (repeat (repeat 0.01 100) 1260)
         (repeat (repeat r0 100) 1260)).
Proof.
  apply (@simulation_rest (fun _ => -4.605170185988091) (fun _ => 0.01)
           (fun _ _ => (0, 0.5)));
    reflexivity.
Defined.

(** X17: the simulation is one-factor throughout.  Each of the three
    arrays is the one-factor recursion on the first column of the draws --
    for G2++ with [a_g2], [sigma_g2] and level [r0] -- so two sequences of
    draws with the same first column give the same result for every number
    of steps and paths: the second column is never read. *)
Theorem simulation_one_factor :
  forall np_log np_exp draws draws',
    (forall t j, fst (draws t j) = fst (draws' t j)) ->
    (forall n m,
        simulate_rates np_log np_exp draws n m
        = simulate_rates np_log np_exp draws' n m) /\
    simulation np_log np_exp draws = simulation np_log np_exp draws' /\
    exists R,
      simulation np_log np_exp draws = Returned R /\
      g2_of R =
        repeat r0 100 ::
          path_rows draws (one_factor_step a_g2 r0 sigma_g2) 100 1 1259
            (repeat r0 100).
Proof.
  intros np_log np_exp draws draws' Hsame.
  assert (Hrates : forall n m,
             simulate_rates np_log np_exp draws n m
             = simulate_rates np_log np_exp draws' n m).
  { intros [|k] m; [reflexivity|].
    rewrite !simulate_rates_closed.
    now rewrite !(path_rows_first_factor draws draws' _ m Hsame). }
  split; [exact Hrates|].
  split; [rewrite !simulation_closed; apply Hrates|].
  eexists. split; [rewrite simulation_closed; apply simulate_rates_closed|].
  reflexivity.
Qed.

Lemma simulation_one_factor_witness :
  simulation (fun _ => -4.605170185988091) (fun _ => 0.01)
    (fun _ _ => (0.5, 1))
  = simulation (fun _ => -4.605170185988091) (fun _ => 0.01)
      (fun _ _ => (0.5, 2)).
Proof.
  apply (@simulation_one_factor (fun _ => -4.605170185988091) (fun _ => 0.01)
           (fun _ _ => (0.5, 1)) (fun _ _ => (0.5, 2))).
  reflexivity.
Defined.

(* ------------------------------------------------------------------ *)
(** * The exceptions of the report itself *)

Section OwnExceptions.
Context {QL : Type} {L : QuantLib QL} {M : Libm}.
Hypothesis Htotal : always_returns L.

Lemma report_body_own_exceptions data acc i s (nb : Notebook QL) e nb' :
  report_body data acc i s nb = (Raised e, nb') ->
  e = IndexError \/ e = ZeroDivisionError \/ e = OverflowError.
Proof.
  destruct Htotal as (Hm & Hb & Hi).
  unfold report_body, bind, call, lift, getitem, py_truediv, ret.
  destruct (Hm s (ql nb)) as (mp & q1 & ->). cbn [ql stdout].
  destruct (nth_error data i) as [d|]; [|intros [= <- _]; auto].
  destruct (Hb s (volatility d) q1) as (bp & q2 & ->). cbn [ql stdout].
  destruct (bp =? 0); [intros [= <- _]; auto|].
  destruct (Hi s mp 1e-5 50%Z 0.0 0.50 q2) as (iv & q3 & ->). cbn [ql stdout].
  destruct (volatility d =? 0); [intros [= <- _]; auto|].
  destruct (py_pow2 (mp / bp - 1.0)) as [e1|e1] eqn:Hpow;
    [|intros [= <- _]; apply py_pow2_raised in Hpow; auto].
  destruct (py_pow2 (iv / volatility d - 1.0)) as [e2|e2] eqn:Hpow2;
    [|intros [= <- _]; apply py_pow2_raised in Hpow2; auto].
  discriminate.
Qed.

Lemma report_loop_own_exceptions data swaptions :
  forall i acc (nb : Notebook QL) e nb',
    for_enumerate (report_body data) i swaptions acc nb = (Raised e, nb') ->
    e = IndexError \/ e = ZeroDivisionError \/ e = OverflowError.
Proof.
  induction swaptions as [|s swaptions IH]; intros i acc nb e nb' H;
    cbn [for_enumerate] in H; [discriminate|].
  unfold bind in H.
  destruct (report_body data acc i s nb) as [[acc1|e1] nb1] eqn:Hbody.
  - exact (IH _ _ _ _ _ H).
  - injection H as <- _. exact (report_body_own_exceptions _ _ _ _ _ Hbody).
Qed.
End OwnExceptions.

(** X18: the exceptions the report can raise by itself.  Against a library
    whose three methods never raise, and on a C library whose squares are
    never below zero, a report that raises does so with
    [IndexError] (a helper without a quote), [ZeroDivisionError] (a zero
    Black price or market volatility) or [OverflowError] (a squared
    relative error beyond the largest float), and with nothing else: in
    particular never with the [ValueError] of [math.sqrt]. *)
Theorem calibration_report_own_exceptions :
  forall QL (L : QuantLib QL) (M : Libm),
    always_returns L ->
    pow2_not_negative M ->
    forall swaptions data (nb : Notebook QL) e nb',
      calibration_report swaptions data nb = (Raised e, nb') ->
      e = IndexError \/ e = ZeroDivisionError \/ e = OverflowError.
Proof.
  intros QL L M Htotal Hpow swaptions data nb e nb' H.
  unfold calibration_report, bind at 1 in H.
  destruct (for_enumerate (report_body data) 0 swaptions (mkLocals [] 0.0 0.0) nb)
    as [[acc|e1] nb1] eqn:Hloop.
  - destruct (report_loop_not_negative Hpow _ _ _ _ _ Hloop eq_refl eq_refl)
      as [H1 H2].
    unfold bind, lift, print, ret in H.
    rewrite (math_sqrt_not_negative H1), (math_sqrt_not_negative H2) in H.
    discriminate.
  - injection H as <- _.
    exact (report_loop_own_exceptions Htotal _ _ _ _ _ Hloop).
Qed.

(** A zero quoted volatility against [uniform_black]: the Black price is
    zero and the report raises [ZeroDivisionError]. *)
Lemma calibration_report_own_exceptions_witness :
  always_returns uniform_black /\
  pow2_not_negative rounded_squares /\
  fst (calibration_report (L := uniform_black) (M := rounded_squares)
         two_swaptions
         [mkCalibrationData 1 5 0.0; mkCalibrationData 2 4 0.25]
         (mkNotebook hw_market [])) = Raised ZeroDivisionError /\
  (ZeroDivisionError = IndexError \/ ZeroDivisionError = ZeroDivisionError \/
   ZeroDivisionError = OverflowError).
Proof.
  assert (Htotal : always_returns uniform_black).
  { repeat split; intros; do 2 eexists; reflexivity. }
  split; [exact Htotal|].
  split; [exact rounded_squares_not_negative|].
  split; [vm_compute; reflexivity|].
  eapply (@calibration_report_own_exceptions Market uniform_black
            rounded_squares Htotal rounded_squares_not_negative
            two_swaptions
            [mkCalibrationData 1 5 0.0; mkCalibrationData 2 4 0.25]
            (mkNotebook hw_market [])).
  vm_compute; reflexivity.
Defined.
